(** * fanalytics: the change detector and sync orchestrator of [data_collection.py]

    Shallow embedding of class [FPLDataCollection] and verification of the
    statements its specification makes about [check_for_updates],
    [sync_database], [get_last_updated_gameweek],
    [get_manager_gameweek_data] and [get_league_standings].

    Python values are embedded as a JSON-shaped tree, exceptions as values of
    an error type, and the three things the class talks to (the remote HTTP
    API, the SQLite file and standard output) as components of an explicit
    [world] threaded through a state-and-error monad. *)

From Stdlib Require Import List String Ascii ZArith Bool Lia Arith.
From Stdlib Require Import DecimalString.
Import ListNotations.
Local Open Scope string_scope.
Local Open Scope list_scope.
Local Open Scope Z_scope.

(** String concatenation, as [+] on Python strings and f-strings. *)
Infix "+++" := String.append (right associativity, at level 60).

Set Implicit Arguments.

(* ===================================================================== *)
(** ** Python values *)
(* ===================================================================== *)

(** What [response.json()] can return, which is also what a cell of a
    [DataFrame] can hold.  [JNull] is [None] (and the missing-value marker
    of pandas).  Floating point numbers are left out. *)
#[warnings="-register-all"]
Inductive json : Type :=
| JNull
| JBool (b : bool)
| JInt (z : Z)
| JStr (s : string)
| JList (items : list json)
| JDict (fields : list (string * json)).

(** Structural equality, computable. *)
Fixpoint json_eqb (a b : json) {struct a} : bool :=
  match a, b with
  | JNull, JNull => true
  | JBool x, JBool y => Bool.eqb x y
  | JInt x, JInt y => Z.eqb x y
  | JStr x, JStr y => String.eqb x y
  | JList xs, JList ys =>
      (fix go (l : list json) (r : list json) {struct l} : bool :=
         match l, r with
         | [], [] => true
         | x :: l', y :: r' => json_eqb x y && go l' r'
         | _, _ => false
         end) xs ys
  | JDict xs, JDict ys =>
      (fix go (l : list (string * json)) (r : list (string * json))
           {struct l} : bool :=
         match l, r with
         | [], [] => true
         | (k, x) :: l', (k', y) :: r' =>
             String.eqb k k' && json_eqb x y && go l' r'
         | _, _ => false
         end) xs ys
  | _, _ => false
  end.

(** Python truthiness ([if data:], [x or 0]). *)
Definition truthy (v : json) : bool :=
  match v with
  | JNull => false
  | JBool b => b
  | JInt z => negb (z =? 0)
  | JStr s => negb (String.eqb s "")
  | JList l => match l with [] => false | _ => true end
  | JDict l => match l with [] => false | _ => true end
  end.


(* ===================================================================== *)
(** ** Exceptions and results *)
(* ===================================================================== *)

(** The subclasses of [Exception] that the modelled code can meet; each
    carries what [str(e)] prints. *)
Inductive exn : Type :=
| KeyError (key : string)
| TypeError (msg : string)
| ValueError (msg : string)
| AttributeError (name : string)
| UnboundLocalError (name : string)
| OperationalError (msg : string)
| DatabaseError (msg : string)
| ConnectionError (msg : string)
| JSONDecodeError (msg : string).

Definition str_exn (e : exn) : string :=
  match e with
  | KeyError k => "'" +++ k +++ "'"
  | TypeError m | ValueError m | OperationalError m | DatabaseError m
  | ConnectionError m | JSONDecodeError m => m
  | AttributeError n =>
      "'FPLDataCollection' object has no attribute '" +++ n +++ "'"
  | UnboundLocalError n =>
      "cannot access local variable '" +++ n
        +++ "' where it is not associated with a value"
  end.

Inductive result (A : Type) : Type :=
| Ok (a : A)
| Raise (e : exn).
Arguments Ok {A} a.
Arguments Raise {A} e.

(** Python's [str(int)]. *)
Definition str_int (z : Z) : string := NilZero.string_of_int (Z.to_int z).

(* ===================================================================== *)
(** ** Dictionaries with insertion order *)
(* ===================================================================== *)

(** A Python [dict] with [str] keys: an association list in insertion
    order.  Assigning to a key that is present keeps its position. *)
Definition dict (V : Type) : Type := list (string * V).

Fixpoint dict_get {V} (d : dict V) (k : string) : option V :=
  match d with
  | [] => None
  | (k', v) :: d' => if String.eqb k k' then Some v else dict_get d' k
  end.

Fixpoint dict_set {V} (d : dict V) (k : string) (v : V) : dict V :=
  match d with
  | [] => [(k, v)]
  | (k', v') :: d' =>
      if String.eqb k k' then (k', v) :: d' else (k', v') :: dict_set d' k v
  end.

Definition dict_keys {V} (d : dict V) : list string := map fst d.

(** [d.get(k, default)] *)
Definition dict_get_default {V} (d : dict V) (k : string) (dflt : V) : V :=
  match dict_get d k with Some v => v | None => dflt end.

(** [not d] for a dict *)
Definition dict_falsy {V} (d : dict V) : bool :=
  match d with [] => true | _ => false end.

(** [obj[key]] with a [str] key, on a parsed JSON value. *)
Definition subscript (obj : json) (key : string) : result json :=
  match obj with
  | JDict kv =>
      match dict_get kv key with
      | Some v => Ok v
      | None => Raise (KeyError key)
      end
  | JList _ => Raise (TypeError "list indices must be integers or slices, not str")
  | JStr _ => Raise (TypeError "string indices must be integers, not 'str'")
  | JNull => Raise (TypeError "'NoneType' object is not subscriptable")
  | JBool _ => Raise (TypeError "'bool' object is not subscriptable")
  | JInt _ => Raise (TypeError "'int' object is not subscriptable")
  end.

(** [needle in hay] for two strings. *)
Fixpoint is_substring (needle hay : string) : bool :=
  String.prefix needle hay
  || match hay with
     | EmptyString => false
     | String _ hay' => is_substring needle hay'
     end.

(** [key in obj] with a [str] key, on a parsed JSON value. *)
Definition contains (obj : json) (key : string) : result bool :=
  match obj with
  | JDict kv => Ok (match dict_get kv key with Some _ => true | None => false end)
  | JList l => Ok (existsb (json_eqb (JStr key)) l)
  | JStr s => Ok (is_substring key s)
  | JNull => Raise (TypeError "argument of type 'NoneType' is not iterable")
  | JBool _ => Raise (TypeError "argument of type 'bool' is not iterable")
  | JInt _ => Raise (TypeError "argument of type 'int' is not iterable")
  end.

(* ===================================================================== *)
(** ** pandas: the part of [DataFrame] that the class uses *)
(* ===================================================================== *)

(** A column label: a field name, or a position when pandas numbers the
    columns itself. *)
Inductive label : Type :=
| LName (s : string)
| LPos (n : nat).

Definition label_eqb (a b : label) : bool :=
  match a, b with
  | LName x, LName y => String.eqb x y
  | LPos x, LPos y => Nat.eqb x y
  | _, _ => false
  end.

(** A table: its column labels and its rows in order, every row holding one
    cell per column.  The row index is always the default [0..n-1] in this
    program (frames come from [pd.DataFrame(records)] and from
    [pd.read_sql_query]), so it is not stored. *)
Record DataFrame : Type := mkDF {
  columns : list label;
  rows : list (list json)
}.

(** [df.shape[0]] *)
Definition shape0 (df : DataFrame) : Z := Z.of_nat (List.length (rows df)).

Fixpoint list_eqb {A} (eqb : A -> A -> bool) (l r : list A) : bool :=
  match l, r with
  | [], [] => true
  | x :: l', y :: r' => eqb x y && list_eqb eqb l' r'
  | _, _ => false
  end.

(** [Series.equals]: same length and the same value at every position. *)
Definition series_equals (a b : list json) : bool := list_eqb json_eqb a b.

(** [DataFrame.equals]: same column labels in the same order, same number of
    rows and the same cell at every position. *)
Definition equals (a b : DataFrame) : bool :=
  list_eqb label_eqb (columns a) (columns b)
  && list_eqb (list_eqb json_eqb) (rows a) (rows b).

Fixpoint label_index (c : label) (cols : list label) : option nat :=
  match cols with
  | [] => None
  | c' :: cols' =>
      if label_eqb c c' then Some O
      else match label_index c cols' with
           | Some i => Some (S i)
           | None => None
           end
  end.

(** [df[name]]: the column as a sequence of cells, [KeyError] when the frame
    has no such column. *)
Definition getitem (df : DataFrame) (name : string) : result (list json) :=
  match label_index (LName name) (columns df) with
  | Some i => Ok (map (fun r => nth i r JNull) (rows df))
  | None => Raise (KeyError name)
  end.

Definition is_dict (v : json) : bool :=
  match v with JDict _ => true | _ => false end.
Definition is_list (v : json) : bool :=
  match v with JList _ => true | _ => false end.
Definition is_scalar (v : json) : bool := negb (is_dict v || is_list v).

Definition fields_of (v : json) : list (string * json) :=
  match v with JDict kv => kv | _ => [] end.
Definition items_of (v : json) : list json :=
  match v with JList l => l | _ => [] end.

(** The keys of all records, each once, in order of first appearance. *)
Fixpoint add_new (seen : list string) (ks : list string) : list string :=
  match ks with
  | [] => seen
  | k :: ks' =>
      if existsb (String.eqb k) seen then add_new seen ks'
      else add_new (seen ++ [k]) ks'
  end.

Definition union_keys (records : list json) : list string :=
  fold_left (fun seen r => add_new seen (dict_keys (fields_of r))) records [].

Definition record_row (cols : list string) (r : json) : list json :=
  map (fun c => match dict_get (fields_of r) c with
                | Some v => v
                | None => JNull
                end) cols.

Definition pad_row (width : nat) (r : list json) : list json :=
  r ++ repeat JNull (width - List.length r)%nat.

(** [pd.DataFrame(data)] on a Python list, the only way the class builds a
    frame:
    - the empty list gives the empty frame;
    - a list of dicts gives one row per dict, the columns being the keys in
      order of first appearance and a missing key giving a null cell;
    - a list of lists gives one row per inner list, columns numbered;
    - a list of scalars gives one numbered column.
    Any other argument is rejected with [ValueError]; pandas accepts some of
    them, none of the statements below depends on which. *)
Definition pd_DataFrame (data : json) : result DataFrame :=
  match data with
  | JList [] => Ok (mkDF [] [])
  | JList ((first :: _) as items) =>
      if is_dict first then
        if forallb is_dict items then
          let cols := union_keys items in
          Ok (mkDF (map LName cols) (map (record_row cols) items))
        else Raise (ValueError "mixed records")
      else if is_list first then
        if forallb is_list items then
          let width := fold_right (fun r w => Nat.max (List.length (items_of r)) w) O items in
          Ok (mkDF (map LPos (seq O width))
                   (map (fun r => pad_row width (items_of r)) items))
        else Raise (ValueError "mixed rows")
      else
        if forallb is_scalar items then
          Ok (mkDF [LPos O] (map (fun x => [x]) items))
        else Raise (ValueError "mixed values")
  | _ => Raise (ValueError "DataFrame constructor not properly called!")
  end.

(* ===================================================================== *)
(** ** The world: remote API, standard output, SQLite file *)
(* ===================================================================== *)

(** What [requests.get(url)] finds: a response with its status code and its
    body ([None] when the body is not JSON, so that [response.json()]
    raises), or no response at all. *)
Inductive http_reply : Type :=
| Reply (status_code : Z) (body : option json)
| NoReply.

(** The side of the world that the fetch helpers see: what the remote source
    answers to the n-th request for a URL, how many requests were made, and
    the lines printed so far. *)
Record net : Type := mkNet {
  remote : nat -> string -> http_reply;
  clock : nat;
  out : list string
}.

(** SQLite values (storage classes INTEGER, TEXT and NULL). *)
Inductive sqlval : Type :=
| SNull
| SInteger (z : Z)
| SText (s : string).

Record table : Type := mkTable {
  tcolumns : list string;
  trows : list (list sqlval)
}.

(** What was done to the database file. *)
Inductive db_event : Type :=
| EConnect
| EQuery (sql : string).

(** The persisted store: [db] is [None] when [./data/fpl_data.db] cannot be
    opened, otherwise the tables by name. *)
Record store : Type := mkStore {
  db : option (dict table);
  trace : list db_event
}.

Record world : Type := mkWorld {
  wnet : net;
  wstore : store
}.

(** State and exceptions: a computation runs in a state and either returns
    or raises, and the state reached is kept in both cases. *)
Definition SE (S A : Type) : Type := S -> result A * S.

Definition ret {S A} (a : A) : SE S A := fun s => (Ok a, s).
Definition raise {S A} (e : exn) : SE S A := fun s => (Raise e, s).
Definition bind {S A B} (m : SE S A) (k : A -> SE S B) : SE S B :=
  fun s => match m s with
           | (Ok a, s') => k a s'
           | (Raise e, s') => (Raise e, s')
           end.
(** [try: m except Exception as e: h e] *)
Definition try_except {S A} (m : SE S A) (h : exn -> SE S A) : SE S A :=
  fun s => match m s with
           | (Ok a, s') => (Ok a, s')
           | (Raise e, s') => h e s'
           end.
Definition lift_result {S A} (r : result A) : SE S A := fun s => (r, s).

Declare Scope se_scope.
Delimit Scope se_scope with se.
Notation "x <- m ;; k" := (bind m (fun x => k))
  (at level 61, m at next level, right associativity) : se_scope.
Notation "m ;;; k" := (bind m (fun _ => k))
  (at level 61, right associativity) : se_scope.
Local Open Scope se_scope.

(** Fetch helpers run on [net], the methods of the class on [world]. *)
Definition F (A : Type) : Type := SE net A.
Definition M (A : Type) : Type := SE world A.

Definition liftF {A} (f : F A) : M A :=
  fun w => let (r, n) := f (wnet w) in (r, mkWorld n (wstore w)).

Definition print (line : string) : F unit :=
  fun n => (Ok tt, mkNet (remote n) (clock n) (out n ++ [line])).

(** [requests.get(url)] *)
Definition requests_get (url : string) : F (Z * option json) :=
  fun n =>
    let n' := mkNet (remote n) (S (clock n)) (out n) in
    match remote n (clock n) url with
    | Reply st body => (Ok (st, body), n')
    | NoReply => (Raise (ConnectionError "connection failed"), n')
    end.

(** [response.json()] *)
Definition response_json (body : option json) : F json :=
  match body with
  | Some j => ret j
  | None => raise (JSONDecodeError "Expecting value")
  end.

(** *** SQLite through pandas *)

(** The three statements the class sends. *)
Inductive query : Type :=
| SelectTableName (name : string)
| SelectAll (name : string)
| SelectMaxLastGw.

Definition sql_text (q : query) : string :=
  match q with
  | SelectTableName name =>
      "SELECT name FROM sqlite_master WHERE type='table' AND name='" +++ name +++ "'"
  | SelectAll name => "SELECT * FROM " +++ name
  | SelectMaxLastGw => "SELECT MAX(id) as last_gw FROM game_weeks WHERE finished = 1"
  end.

(** [sqlite3.connect("./data/fpl_data.db")] *)
Definition sqlite3_connect : M unit :=
  fun w =>
    let st := wstore w in
    match db st with
    | Some _ => (Ok tt, mkWorld (wnet w) (mkStore (db st) (trace st ++ [EConnect])))
    | None => (Raise (OperationalError "unable to open database file"), w)
    end.

Definition sql_to_py (v : sqlval) : json :=
  match v with
  | SNull => JNull
  | SInteger z => JInt z
  | SText s => JStr s
  end.

Definition frame_of_table (t : table) : DataFrame :=
  mkDF (map LName (tcolumns t)) (map (map sql_to_py) (trows t)).

Fixpoint index_of (c : string) (cols : list string) : option nat :=
  match cols with
  | [] => None
  | c' :: cols' =>
      if String.eqb c c' then Some O
      else match index_of c cols' with
           | Some i => Some (S i)
           | None => None
           end
  end.

(** SQLite's order on values, NULL lowest, then INTEGER, then TEXT. *)
Definition sql_leb (a b : sqlval) : bool :=
  match a, b with
  | SNull, _ => true
  | _, SNull => false
  | SInteger x, SInteger y => x <=? y
  | SInteger _, SText _ => true
  | SText _, SInteger _ => false
  | SText x, SText y => String.leb x y
  end.

(** [MAX(...)]: NULL on no value, NULLs never win over a value. *)
Definition sql_max (vs : list sqlval) : sqlval :=
  fold_left (fun m v => if sql_leb v m then m else v) vs SNull.

(** [WHERE col = 1] *)
Definition sql_is_one (v : sqlval) : bool :=
  match v with SInteger z => z =? 1 | _ => false end.

(** What SQLite answers and pandas turns into a frame.  Table and column
    names are the plain identifiers the class uses and are matched exactly;
    a column is compared as it is stored, without conversion. *)
Definition run_query (tables : dict table) (q : query) : result DataFrame :=
  match q with
  | SelectTableName name =>
      Ok (mkDF [LName "name"]
               (match dict_get tables name with
                | Some _ => [[JStr name]]
                | None => []
                end))
  | SelectAll name =>
      match dict_get tables name with
      | Some t => Ok (frame_of_table t)
      | None => Raise (DatabaseError ("no such table: " +++ name))
      end
  | SelectMaxLastGw =>
      match dict_get tables "game_weeks" with
      | None => Raise (DatabaseError "no such table: game_weeks")
      | Some t =>
          match index_of "id" (tcolumns t), index_of "finished" (tcolumns t) with
          | Some i, Some f =>
              let hits := filter (fun r => sql_is_one (nth f r SNull)) (trows t) in
              Ok (mkDF [LName "last_gw"]
                       [[sql_to_py (sql_max (map (fun r => nth i r SNull) hits))]])
          | None, _ => Raise (DatabaseError "no such column: id")
          | _, None => Raise (DatabaseError "no such column: finished")
          end
      end
  end.

(** [pd.read_sql_query(sql, conn)] *)
Definition read_sql_query (q : query) : M DataFrame :=
  fun w =>
    let st := wstore w in
    let w' := mkWorld (wnet w) (mkStore (db st) (trace st ++ [EQuery (sql_text q)])) in
    match db st with
    | Some tables => (run_query tables q, w')
    | None => (Raise (OperationalError "unable to open database file"), w')
    end.


(* ===================================================================== *)
(** ** class FPLDataCollection *)
(* ===================================================================== *)

(** A set of named tables, as the fetch operations return it. *)
Definition TableSet : Type := dict DataFrame.

(** An object of the class: the attributes the methods read from [self].
    Python looks an attribute up when the method runs, so each one may be
    missing ([None] here, [AttributeError] there).  [a__make_request] and
    [a_get_fpl_data] hold bound callables. *)
Record instance : Type := mkInstance {
  a_base_url : option string;
  a_endpoints : option (dict string);
  a_main_data : option (option TableSet);
  a_current_gameweek : option json;
  a__make_request : option (string -> F json);
  a__get_current_gameweek : option (F json);
  a_get_fpl_data : option (F (option TableSet))
}.

(** [self.name] *)
Definition load_attr {S A} (name : string) (slot : option A) : SE S A :=
  match slot with
  | Some v => ret v
  | None => raise (AttributeError name)
  end.

(** Reading a local variable of a function; the name is local when the
    function binds it anywhere in its body. *)
Definition load_local {S A} (name : string) (slot : option A) : SE S A :=
  match slot with
  | Some v => ret v
  | None => raise (UnboundLocalError name)
  end.

(** [d[k]] on a dict *)
Definition dict_item {S V} (d : dict V) (k : string) : SE S V :=
  match dict_get d k with
  | Some v => ret v
  | None => raise (KeyError k)
  end.

(** Lines 9-15. *)
Definition default_endpoints : dict string :=
  [ ("main", "bootstrap-static/");
    ("player_stats", "element-summary/");
    ("manager_info", "entry/");
    ("manager_history", "history/");
    ("leagues", "leagues-classic/") ].

(** An object before [__init__] has run. *)
Definition object_new : instance :=
  mkInstance None None None None None None None.

(** Lines 19-25, a function defined inside [__init__].  [None] is [JNull]. *)
Definition _make_request (url : string) : F json :=
  resp <- requests_get url ;;
  if fst resp =? 200 then response_json (snd resp)
  else
    print ("Failed to retrieve data. Status code: " +++ str_int (fst resp)) ;;;
    ret JNull.

(** [pd.DataFrame(data[key])] *)
Definition frame_at {S} (data : json) (key : string) : SE S DataFrame :=
  v <- lift_result (subscript data key) ;;
  lift_result (pd_DataFrame v).

(** Lines 34-49, a function defined inside [__init__]. *)
Definition get_fpl_data (self : instance) : F (option TableSet) :=
  base <- load_attr "base_url" (a_base_url self) ;;
  eps <- load_attr "endpoints" (a_endpoints self) ;;
  main <- dict_item eps "main" ;;
  let url := base +++ main in
  request <- load_attr "_make_request" (a__make_request self) ;;
  data <- request url ;;
  if truthy data then
    chips <- frame_at data "chips" ;;
    months <- frame_at data "phases" ;;
    football_players <- frame_at data "elements" ;;
    football_teams <- frame_at data "teams" ;;
    game_weeks <- frame_at data "events" ;;
    element_types <- frame_at data "element_types" ;;
    element_stats <- frame_at data "element_stats" ;;
    ret (Some [ ("chips", chips);
                ("months", months);
                ("football_players", football_players);
                ("football_teams", football_teams);
                ("game_weeks", game_weeks);
                ("element_types", element_types);
                ("element_stats", element_stats) ])
  else ret None.

(** The local names of [__init__] that its own [def] statements bind. *)
Record init_locals : Type := mkLocals {
  l__make_request : option (string -> F json);
  l__get_current_gameweek : option (F json);
  l_get_fpl_data : option (F (option TableSet))
}.

(** Lines 7-17.  The three [def] statements at lines 19, 27 and 34 are
    indented into [__init__], after line 17: they make the three names local
    to [__init__] and bind them only once line 17 is passed, and they never
    become attributes of the object or of the class. *)
Definition __init__ (base_url : string) : M instance :=
  let locals := mkLocals None None None in
  let self := mkInstance (Some base_url) (Some default_endpoints)
                         None None None None None in
  fetch <- load_local "get_fpl_data" (l_get_fpl_data locals) ;;
  main_data <- liftF fetch ;;
  let self := mkInstance (a_base_url self) (a_endpoints self) (Some main_data)
                         None None None None in
  current <- load_attr "_get_current_gameweek" (a__get_current_gameweek self) ;;
  gw <- liftF current ;;
  ret (mkInstance (a_base_url self) (a_endpoints self) (a_main_data self)
                  (Some gw) None None None).

(** An object on which the helpers of lines 19-49 are reachable as
    attributes, which is what the methods below expect of [self]. *)
Definition with_helpers (base_url : string) : instance :=
  let partial := mkInstance (Some base_url) (Some default_endpoints)
                            None None (Some _make_request) None None in
  mkInstance (Some base_url) (Some default_endpoints) None None
             (Some _make_request) None (Some (get_fpl_data partial)).

(** *** get_manager_gameweek_data, lines 51-80 *)

Definition data_mapping : dict string :=
  [ ("active_chips", "active_chip");
    ("automatic_subs", "automatic_subs");
    ("event_history", "entry_history");
    ("player_picks", "picks") ].

(** Lines 68-73: the frame built from a field that is present and not null. *)
Definition field_frame (df_key : string) (v : json) : result DataFrame :=
  if String.eqb df_key "event_history" then pd_DataFrame (JList [v])
  else if is_list v || is_dict v then
    pd_DataFrame (if is_list v then v else JList [v])
  else pd_DataFrame (JList [JList [v]]).

Definition is_none (v : json) : bool :=
  match v with JNull => true | _ => false end.

(** Lines 66-78: one turn of the loop, the value stored under [df_key]. *)
Definition extract_field (data : json) (df_key data_key : string)
  : F (option DataFrame) :=
  try_except
    (present <- lift_result (contains data data_key) ;;
     if present then
       v <- lift_result (subscript data data_key) ;;
       if negb (is_none v) then
         df <- lift_result (field_frame df_key v) ;;
         ret (Some df)
       else ret None
     else ret None)
    (fun e =>
       print ("Error processing " +++ df_key +++ ": " +++ str_exn e) ;;;
       ret None).

Fixpoint extract_fields (data : json) (mapping : dict string)
         (gameweek_data : dict (option DataFrame))
  : F (dict (option DataFrame)) :=
  match mapping with
  | [] => ret gameweek_data
  | (df_key, data_key) :: rest =>
      t <- extract_field data df_key data_key ;;
      extract_fields data rest (dict_set gameweek_data df_key t)
  end.

Definition get_manager_gameweek_data (self : instance) (manager_id event_id : Z)
  : F (option (dict (option DataFrame))) :=
  base <- load_attr "base_url" (a_base_url self) ;;
  eps <- load_attr "endpoints" (a_endpoints self) ;;
  info <- dict_item eps "manager_info" ;;
  let url := base +++ info +++ str_int manager_id +++ "/event/"
                  +++ str_int event_id +++ "/picks/" in
  request <- load_attr "_make_request" (a__make_request self) ;;
  data <- request url ;;
  if truthy data then
    gameweek_data <- extract_fields data data_mapping [] ;;
    ret (Some gameweek_data)
  else ret None.

(** *** get_league_standings, lines 82-92 *)

Definition get_league_standings (self : instance) (league_id : Z)
  : F (option TableSet) :=
  base <- load_attr "base_url" (a_base_url self) ;;
  eps <- load_attr "endpoints" (a_endpoints self) ;;
  leagues <- dict_item eps "leagues" ;;
  let url := base +++ leagues +++ str_int league_id +++ "/standings/" in
  request <- load_attr "_make_request" (a__make_request self) ;;
  data <- request url ;;
  if truthy data then
    league <- lift_result (subscript data "league") ;;
    league_info <- lift_result (pd_DataFrame (JList [league])) ;;
    st <- lift_result (subscript data "standings") ;;
    standings <- frame_at st "results" ;;
    ret (Some [("league_info", league_info); ("standings", standings)])
  else ret None.

(** *** get_manager_history, lines 94-105 *)

Definition get_manager_history (self : instance) (manager_id : Z)
  : F (option TableSet) :=
  base <- load_attr "base_url" (a_base_url self) ;;
  eps <- load_attr "endpoints" (a_endpoints self) ;;
  h1 <- dict_item eps "manager_history" ;;
  h2 <- dict_item eps "manager_history" ;;
  let url := base +++ h1 +++ str_int manager_id +++ "/" +++ h2 in
  request <- load_attr "_make_request" (a__make_request self) ;;
  data <- request url ;;
  if truthy data then
    current_season <- frame_at data "history" ;;
    past_seasons <- frame_at data "history_past" ;;
    chips <- frame_at data "chips" ;;
    ret (Some [ ("current_season", current_season);
                ("past_seasons", past_seasons);
                ("chips", chips) ])
  else ret None.

(** *** check_for_updates, lines 150-193 *)

(** Lines 179-187: the comparison rule of a table found in the store. *)
Definition table_verdict (table_name : string) (new_df existing_df : DataFrame)
  : result bool :=
  if String.eqb table_name "game_weeks" then
    Ok (negb (equals new_df existing_df))
  else if String.eqb table_name "football_players" then
    match getitem new_df "total_points" with
    | Raise e => Raise e
    | Ok fresh_points =>
        match getitem existing_df "total_points" with
        | Raise e => Raise e
        | Ok stored_points => Ok (negb (series_equals fresh_points stored_points))
        end
    end
  else Ok (negb (shape0 new_df =? shape0 existing_df)).

(** Lines 164-187: the loop over [api_data.items()]. *)
Fixpoint check_tables (items : list (string * DataFrame))
         (updates_needed : dict bool) : M (dict bool) :=
  match items with
  | [] => ret updates_needed
  | (table_name, new_df) :: rest =>
      found <- read_sql_query (SelectTableName table_name) ;;
      let table_exists := 0 <? shape0 found in
      if negb table_exists then
        check_tables rest (dict_set updates_needed table_name true)
      else
        existing_df <- read_sql_query (SelectAll table_name) ;;
        verdict <- lift_result (table_verdict table_name new_df existing_df) ;;
        check_tables rest (dict_set updates_needed table_name verdict)
  end.

(** [not api_data] on an optional dict *)
Definition no_tables (t : option TableSet) : bool :=
  match t with
  | None => true
  | Some d => dict_falsy d
  end.

Definition tables_of (t : option TableSet) : TableSet :=
  match t with
  | None => []
  | Some d => d
  end.

(** Lines 158-189: the [try] block. *)
Definition check_for_updates_try (self : instance) : M (dict bool) :=
  sqlite3_connect ;;;
  fetch <- load_attr "get_fpl_data" (a_get_fpl_data self) ;;
  api_data <- liftF fetch ;;
  if no_tables api_data then ret []
  else check_tables (tables_of api_data) [].

(** Lines 191-193: the [except Exception as e] block. *)
Definition check_for_updates_except (e : exn) : M (dict bool) :=
  liftF (print ("Error checking for updates: " +++ str_exn e)) ;;;
  ret [].

Definition check_for_updates (self : instance) : M (dict bool) :=
  try_except (check_for_updates_try self) check_for_updates_except.

(** *** sync_database, lines 195-226 *)

(** Line 222: [{table: new_data[table] for table in tables_needing_update}] *)
Fixpoint build_update_dict {S} (new_data : TableSet) (tables : list string)
         (acc : TableSet) : SE S TableSet :=
  match tables with
  | [] => ret acc
  | t :: rest =>
      df <- dict_item new_data t ;;
      build_update_dict new_data rest (dict_set acc t df)
  end.

(** [specific_tables if specific_tables else updates.keys()] *)
Definition candidate_tables (specific_tables : option (list string))
           (updates : dict bool) : list string :=
  match specific_tables with
  | Some (t :: ts) => t :: ts
  | Some [] => dict_keys updates
  | None => dict_keys updates
  end.

Definition sync_database (self : instance)
           (specific_tables : option (list string)) : M unit :=
  updates <- check_for_updates self ;;
  if dict_falsy updates then
    liftF (print "No updates available or error checking for updates")
  else
    let tables_to_update := candidate_tables specific_tables updates in
    let tables_needing_update :=
      filter (fun t => dict_get_default updates t false) tables_to_update in
    match tables_needing_update with
    | [] => liftF (print "All specified tables are up to date")
    | _ :: _ =>
        liftF (print ("Updating tables: "
                        +++ String.concat ", " tables_needing_update)) ;;;
        fetch <- load_attr "get_fpl_data" (a_get_fpl_data self) ;;
        new_data <- liftF fetch ;;
        if no_tables new_data then liftF (print "Failed to fetch new data")
        else
          update_dict <- build_update_dict (tables_of new_data)
                                           tables_needing_update [] ;;
          (* lines 225-226 are comments: nothing is done with update_dict *)
          ret tt
    end.

(** *** get_last_updated_gameweek, lines 228-239 *)




(** *** _get_current_gameweek, lines 27-32, a function defined inside
    [__init__] *)

Definition is_bool (v : json) : bool :=
  match v with JBool _ => true | _ => false end.

(** [df[flags]], the frame's own column used as a boolean mask: the rows
    whose flag is [True], in order.  pandas refuses a mask that has a null
    among its booleans with [ValueError]; a mask of anything else it reads as
    a list of column labels, a reading that is not followed here and raises
    [KeyError]. *)
Definition mask_rows (df : DataFrame) (flags : list json) : result DataFrame :=
  if forallb is_bool flags then
    Ok (mkDF (columns df)
             (map fst (filter (fun p => json_eqb (snd p) (JBool true))
                              (combine (rows df) flags))))
  else if forallb (fun v => is_bool v || is_none v) flags then
    Raise (ValueError
             "Cannot mask with non-boolean array containing NA / NaN values")
  else Raise (KeyError "None of the labels are in the [columns]").

(** [df.iloc[0]]: the first row; out of bounds on a frame without rows
    (Python's [IndexError], carried as in [iloc0]). *)
Definition frame_iloc0 (df : DataFrame) : result (list json) :=
  match rows df with
  | r :: _ => Ok r
  | [] => Raise (ValueError "single positional indexer is out-of-bounds")
  end.

(** [row[name]] on a row of a frame with these column labels. *)
Definition row_getitem (cols : list label) (row : list json) (name : string)
  : result json :=
  match label_index (LName name) cols with
  | Some i => Ok (nth i row JNull)
  | None => Raise (KeyError name)
  end.

Definition _get_current_gameweek (self : instance) : F json :=
  main_data <- load_attr "main_data" (a_main_data self) ;;
  if no_tables main_data then ret (JInt 0)
  else
    game_weeks_df <- dict_item (tables_of main_data) "game_weeks" ;;
    flags <- lift_result (getitem game_weeks_df "is_current") ;;
    current <- lift_result (mask_rows game_weeks_df flags) ;;
    first <- lift_result (frame_iloc0 current) ;;
    lift_result (row_getitem (columns current) first "id").

(* ===================================================================== *)
(** ** Vocabulary of the statements *)
(* ===================================================================== *)

(** The frame has a column of that name. *)
Definition has_column (df : DataFrame) (name : string) : bool :=
  match label_index (LName name) (columns df) with
  | Some _ => true
  | None => false
  end.

(** The verdict the loop of [check_for_updates] reaches for one fetched
    table, read off the tables of the store: lines 171-187 without the
    trace. *)
Definition verdict_of (tables : dict table) (table_name : string)
           (new_df : DataFrame) : result bool :=
  match dict_get tables table_name with
  | None => Ok true
  | Some t => table_verdict table_name new_df (frame_of_table t)
  end.

Fixpoint verdicts (tables : dict table) (items : list (string * DataFrame))
         (updates_needed : dict bool) : result (dict bool) :=
  match items with
  | [] => Ok updates_needed
  | (table_name, new_df) :: rest =>
      match verdict_of tables table_name new_df with
      | Ok v => verdicts tables rest (dict_set updates_needed table_name v)
      | Raise e => Raise e
      end
  end.

(** The fetched players table and the stored one, when both are there, have
    the column the players rule reads. *)
Definition comparable (tables : dict table) (api : TableSet) : Prop :=
  forall new_df t,
    In ("football_players", new_df) api ->
    dict_get tables "football_players" = Some t ->
    has_column new_df "total_points" = true
    /\ has_column (frame_of_table t) "total_points" = true.

(** The SQL statements of a trace: the reads of the persisted store. *)
Fixpoint reads (tr : list db_event) : list string :=
  match tr with
  | [] => []
  | EConnect :: tr' => reads tr'
  | EQuery sql :: tr' => sql :: reads tr'
  end.

(** The store side once [sqlite3.connect] has succeeded. *)
Definition connected (w : world) : store :=
  mkStore (db (wstore w)) (trace (wstore w) ++ [EConnect]).

(** The address [get_league_standings] asks for. *)
Definition league_url (base : string) (league_id : Z) : string :=
  base +++ "leagues-classic/" +++ str_int league_id +++ "/standings/".

(** The address [get_manager_gameweek_data] asks for. *)
Definition picks_url (base : string) (manager_id event_id : Z) : string :=
  base +++ "entry/" +++ str_int manager_id +++ "/event/"
       +++ str_int event_id +++ "/picks/".

(** The address [get_manager_history] asks for. *)
Definition history_url (base : string) (manager_id : Z) : string :=
  base +++ "history/" +++ str_int manager_id +++ "/" +++ "history/".



(** A computation that leaves the tables of the store as they are, whether
    it returns or raises. *)
Definition keeps_db {A} (m : M A) : Prop :=
  forall w, db (wstore (snd (m w))) = db (wstore w).

(** The value [extract_field] stores, without the printing. *)
Definition field_value (data : json) (df_key data_key : string)
  : option DataFrame :=
  match contains data data_key with
  | Ok true =>
      match subscript data data_key with
      | Ok v =>
          if negb (is_none v) then
            match field_frame df_key v with
            | Ok df => Some df
            | Raise _ => None
            end
          else None
      | Raise _ => None
      end
  | _ => None
  end.

(* ===================================================================== *)
(** ** A scenario: one fetch of the main data set against a store *)
(* ===================================================================== *)

Definition api_root : string := "https://fantasy.premierleague.com/api/".

Definition team_ids : list Z := map Z.of_nat (seq 1 20).

(** Twenty teams; the remote source has 3 points for team 7, the store 0. *)
Definition fresh_team (i : Z) : json :=
  JDict [("id", JInt i); ("points", JInt (if i =? 7 then 3 else 0))].

Definition stored_team (i : Z) : list sqlval := [SInteger i; SInteger 0].

Definition scenario_body : json :=
  JDict
    [ ("chips", JList [JDict [("id", JInt 1); ("name", JStr "wildcard")]]);
      ("phases", JList [JDict [("id", JInt 1); ("name", JStr "Overall")]]);
      ("elements",
        JList [ JDict [("id", JInt 1); ("web_name", JStr "Salah");
                       ("total_points", JInt 7)];
                JDict [("id", JInt 2); ("web_name", JStr "Haaland");
                       ("total_points", JInt 9)] ]);
      ("teams", JList (map fresh_team team_ids));
      ("events",
        JList [ JDict [("id", JInt 5); ("finished", JBool true)];
                JDict [("id", JInt 6); ("finished", JBool false)] ]);
      ("element_types", JList []);
      ("element_stats", JList []) ].

Definition scenario_remote (n : nat) (url : string) : http_reply :=
  if String.eqb url (api_root +++ "bootstrap-static/")
  then Reply 200 (Some scenario_body)
  else Reply 404 None.

(** The store holds four of the seven tables: the players under another
    spelling of one name, the teams before the points changed, and the
    gameweeks with the flag as SQLite keeps it. *)
Definition scenario_tables : dict table :=
  [ ("months", mkTable ["id"; "name"] [[SInteger 1; SText "Overall"]]);
    ("football_players",
      mkTable ["id"; "web_name"; "total_points"]
              [ [SInteger 1; SText "M.Salah"; SInteger 7];
                [SInteger 2; SText "Haaland"; SInteger 9] ]);
    ("football_teams", mkTable ["id"; "points"] (map stored_team team_ids));
    ("game_weeks",
      mkTable ["id"; "finished"]
              [[SInteger 5; SInteger 1]; [SInteger 6; SInteger 0]]) ].

Definition scenario_world : world :=
  mkWorld (mkNet scenario_remote O []) (mkStore (Some scenario_tables) []).

Definition scenario_self : instance := with_helpers api_root.

Definition scenario_players : DataFrame :=
  mkDF [LName "id"; LName "web_name"; LName "total_points"]
       [ [JInt 1; JStr "Salah"; JInt 7]; [JInt 2; JStr "Haaland"; JInt 9] ].

Definition scenario_teams : DataFrame :=
  mkDF [LName "id"; LName "points"]
       (map (fun i => [JInt i; JInt (if i =? 7 then 3 else 0)]) team_ids).

Definition scenario_game_weeks : DataFrame :=
  mkDF [LName "id"; LName "finished"]
       [[JInt 5; JBool true]; [JInt 6; JBool false]].

(** What the fetch of the scenario returns. *)
Definition scenario_api : TableSet :=
  [ ("chips", mkDF [LName "id"; LName "name"] [[JInt 1; JStr "wildcard"]]);
    ("months", mkDF [LName "id"; LName "name"] [[JInt 1; JStr "Overall"]]);
    ("football_players", scenario_players);
    ("football_teams", scenario_teams);
    ("game_weeks", scenario_game_weeks);
    ("element_types", mkDF [] []);
    ("element_stats", mkDF [] []) ].

(** *** A second scenario: the store mirrors the remote source *)

Definition mirror_record : json :=
  JDict [("id", JInt 1); ("name", JStr "first"); ("total_points", JInt 4)].

Definition mirror_body : json :=
  JDict (map (fun field => (field, JList [mirror_record]))
             ["chips"; "phases"; "elements"; "teams"; "events";
              "element_types"; "element_stats"]).

Definition mirror_table : table :=
  mkTable ["id"; "name"; "total_points"]
          [[SInteger 1; SText "first"; SInteger 4]].

Definition mirror_frame : DataFrame :=
  mkDF [LName "id"; LName "name"; LName "total_points"]
       [[JInt 1; JStr "first"; JInt 4]].

Definition mirror_tables : dict table :=
  map (fun name => (name, mirror_table))
      ["chips"; "months"; "football_players"; "football_teams"; "game_weeks";
       "element_types"; "element_stats"].

Definition mirror_api : TableSet :=
  map (fun name => (name, mirror_frame))
      ["chips"; "months"; "football_players"; "football_teams"; "game_weeks";
       "element_types"; "element_stats"].

Definition mirror_world : world :=
  mkWorld (mkNet (fun _ _ => Reply 200 (Some mirror_body)) O [])
          (mkStore (Some mirror_tables) []).

(** *** A third scenario: the remote source answers once, then breaks *)

Definition flaky_remote (n : nat) (url : string) : http_reply :=
  match n with
  | O => scenario_remote n url
  | S _ => Reply 200 None
  end.

Definition flaky_world : world :=
  mkWorld (mkNet flaky_remote O []) (mkStore (Some scenario_tables) []).

(* ===================================================================== *)
(** ** Vocabulary of the further statements *)
(* ===================================================================== *)

Definition rbind {A B} (r : result A) (k : A -> result B) : result B :=
  match r with
  | Ok a => k a
  | Raise e => Raise e
  end.

(** [pd.DataFrame(data[key])] as a value. *)
Definition frame_of_field (data : json) (key : string) : result DataFrame :=
  rbind (subscript data key) pd_DataFrame.

(** The table set that [get_fpl_data] builds from a response, lines 40-48,
    in the order the dict display evaluates its entries. *)
Definition main_tables (data : json) : result TableSet :=
  rbind (frame_of_field data "chips") (fun chips =>
  rbind (frame_of_field data "phases") (fun months =>
  rbind (frame_of_field data "elements") (fun football_players =>
  rbind (frame_of_field data "teams") (fun football_teams =>
  rbind (frame_of_field data "events") (fun game_weeks =>
  rbind (frame_of_field data "element_types") (fun element_types =>
  rbind (frame_of_field data "element_stats") (fun element_stats =>
  Ok [ ("chips", chips);
       ("months", months);
       ("football_players", football_players);
       ("football_teams", football_teams);
       ("game_weeks", game_weeks);
       ("element_types", element_types);
       ("element_stats", element_stats) ]))))))).

(** The fields of the response that [get_fpl_data] reads. *)
Definition main_fields : list string :=
  ["chips"; "phases"; "elements"; "teams"; "events"; "element_types";
   "element_stats"].

(** Which field of the response each table of [get_fpl_data] comes from. *)
Definition main_mapping : dict string :=
  [ ("chips", "chips");
    ("months", "phases");
    ("football_players", "elements");
    ("football_teams", "teams");
    ("game_weeks", "events");
    ("element_types", "element_types");
    ("element_stats", "element_stats") ].

(** The address [get_fpl_data] asks for. *)
Definition main_url (base : string) : string := base +++ "bootstrap-static/".

(** A list of records. *)
Definition is_records (v : json) : bool :=
  match v with
  | JList l => forallb is_dict l
  | _ => false
  end.

(** A fetch computation that makes no request. *)
Definition no_request {A} (m : F A) : Prop :=
  forall n, clock (snd (m n)) = clock n /\ remote (snd (m n)) = remote n.

(** A fetch computation that makes exactly one request, whether it returns
    or raises, and leaves the remote source as it is. *)
Definition one_request {A} (m : F A) : Prop :=
  forall n, clock (snd (m n)) = S (clock n) /\ remote (snd (m n)) = remote n.

(** The statements [check_for_updates] sends for a table set when its loop
    runs to the end: for each fetched table the look-up of its name, and the
    full read only when the store has the table. *)
Definition statements (tables : dict table) (api : TableSet) : list string :=
  flat_map
    (fun p =>
       sql_text (SelectTableName (fst p))
         :: match dict_get tables (fst p) with
            | Some _ => [sql_text (SelectAll (fst p))]
            | None => []
            end)
    api.

(** One more line on standard output. *)
Definition printed (w : world) (line : string) : world :=
  mkWorld (mkNet (remote (wnet w)) (clock (wnet w)) (out (wnet w) ++ [line]))
          (wstore w).

(** The tables that [sync_database] announces, line 207. *)
Definition tables_needing_update (specific_tables : option (list string))
           (updates : dict bool) : list string :=
  filter (fun t => dict_get_default updates t false)
         (candidate_tables specific_tables updates).

(* ===================================================================== *)
(** ** Equality tests decide equality *)
(* ===================================================================== *)

Section JsonInduction.
Variable P : json -> Prop.
Hypothesis HNull : P JNull.
Hypothesis HBool : forall b, P (JBool b).
Hypothesis HInt : forall z, P (JInt z).
Hypothesis HStr : forall s, P (JStr s).
Hypothesis HList : forall l, Forall P l -> P (JList l).
Hypothesis HDict : forall kv, Forall (fun p => P (snd p)) kv -> P (JDict kv).

Fixpoint json_nested_ind (j : json) : P j :=
  match j with
  | JNull => HNull
  | JBool b => HBool b
  | JInt z => HInt z
  | JStr s => HStr s
  | JList l =>
      HList ((fix all (l : list json) : Forall P l :=
                match l with
                | [] => Forall_nil P
                | x :: l' => Forall_cons x (json_nested_ind x) (all l')
                end) l)
  | JDict kv =>
      HDict ((fix all (l : list (string * json))
              : Forall (fun p => P (snd p)) l :=
                match l with
                | [] => Forall_nil _
                | p :: l' =>
                    Forall_cons (P := fun p => P (snd p)) p
                                (json_nested_ind (snd p)) (all l')
                end) kv)
  end.
End JsonInduction.

Unset Implicit Arguments.

Lemma json_eqb_eq : forall a b, json_eqb a b = true <-> a = b.
Proof.
  induction a using json_nested_ind; intros [ | b' | z' | s' | l' | kv']; simpl;
    try (split; [discriminate | intros E; discriminate E]);
    try (split; reflexivity).
  - rewrite Bool.eqb_true_iff. split; congruence.
  - rewrite Z.eqb_eq. split; congruence.
  - rewrite String.eqb_eq. split; congruence.
  - revert l'. induction H as [ | x l Hx Hl IH]; intros [ | y r].
    + split; reflexivity.
    + split; [discriminate | intros E; discriminate E].
    + split; [discriminate | intros E; discriminate E].
    + rewrite andb_true_iff, Hx, IH. split.
      * intros [-> E]. injection E as ->. reflexivity.
      * intros E. injection E as -> ->. split; reflexivity.
  - revert kv'. induction H as [ | [k x] l Hx Hl IH]; intros [ | [k' y] r].
    + split; reflexivity.
    + split; [discriminate | intros E; discriminate E].
    + split; [discriminate | intros E; discriminate E].
    + simpl in Hx. rewrite !andb_true_iff, String.eqb_eq, Hx, IH. split.
      * intros [[-> ->] E]. injection E as ->. reflexivity.
      * intros E. injection E as -> -> ->. repeat split; reflexivity.
Qed.

Lemma list_eqb_eq {A} (eqb : A -> A -> bool) :
  (forall x y, eqb x y = true <-> x = y) ->
  forall l r, list_eqb eqb l r = true <-> l = r.
Proof.
  intros Heq. induction l as [ | x l IH]; intros [ | y r]; simpl;
    try (split; [discriminate | intros E; discriminate E]);
    try (split; reflexivity).
  rewrite andb_true_iff, Heq, IH. split.
  - intros [-> ->]. reflexivity.
  - intros E. injection E as -> ->. split; reflexivity.
Qed.

Lemma label_eqb_eq : forall a b, label_eqb a b = true <-> a = b.
Proof.
  intros [x | x] [y | y]; simpl;
    try (split; [discriminate | intros E; discriminate E]).
  - rewrite String.eqb_eq. split; congruence.
  - rewrite Nat.eqb_eq. split; congruence.
Qed.

Lemma series_equals_eq : forall a b, series_equals a b = true <-> a = b.
Proof. apply list_eqb_eq, json_eqb_eq. Qed.

Lemma equals_eq : forall a b, equals a b = true <-> a = b.
Proof.
  intros [ca ra] [cb rb]. unfold equals. simpl.
  rewrite andb_true_iff.
  rewrite (list_eqb_eq label_eqb label_eqb_eq).
  rewrite (list_eqb_eq _ (list_eqb_eq json_eqb json_eqb_eq)).
  split.
  - intros [-> ->]. reflexivity.
  - intros E. injection E as -> ->. split; reflexivity.
Qed.


(* ===================================================================== *)
(** ** Dictionaries *)
(* ===================================================================== *)

Lemma dict_get_set_same {V} (d : dict V) k v :
  dict_get (dict_set d k v) k = Some v.
Proof.
  induction d as [ | [k' v'] d IH]; simpl.
  - rewrite String.eqb_refl. reflexivity.
  - destruct (String.eqb k k') eqn:E; simpl; rewrite E; [reflexivity | exact IH].
Qed.

Lemma dict_get_set_other {V} (d : dict V) k k' v :
  k <> k' -> dict_get (dict_set d k v) k' = dict_get d k'.
Proof.
  intros Hne. induction d as [ | [k0 v0] d IH]; simpl.
  - destruct (String.eqb k' k) eqn:E; [ | reflexivity].
    apply String.eqb_eq in E. congruence.
  - destruct (String.eqb k k0) eqn:E; simpl.
    + apply String.eqb_eq in E. subst k0.
      destruct (String.eqb k' k) eqn:E'; [ | reflexivity].
      apply String.eqb_eq in E'. congruence.
    + rewrite IH. reflexivity.
Qed.

(* ===================================================================== *)
(** ** The loop of check_for_updates *)
(* ===================================================================== *)

(** The queries answer from the tables and leave everything but the trace. *)
Lemma read_sql_query_run (q : query) (w : world) (tables : dict table) :
  db (wstore w) = Some tables ->
  read_sql_query q w
  = (run_query tables q,
     mkWorld (wnet w)
             (mkStore (Some tables) (trace (wstore w) ++ [EQuery (sql_text q)]))).
Proof. intros H. unfold read_sql_query. rewrite H. reflexivity. Qed.

(** The loop computes [verdicts]; it touches neither the network side nor
    the tables. *)
Lemma check_tables_run (tables : dict table) :
  forall items acc w,
    db (wstore w) = Some tables ->
    exists tr,
      check_tables items acc w
      = (verdicts tables items acc,
         mkWorld (wnet w) (mkStore (Some tables) tr)).
Proof.
  induction items as [ | [name new_df] rest IH];
    intros acc [n [d tr]] Hdb; simpl in Hdb; subst d.
  - eexists. reflexivity.
  - cbn [check_tables verdicts]. unfold bind at 1.
    rewrite (@read_sql_query_run (SelectTableName name)
               (mkWorld n (mkStore (Some tables) tr)) tables eq_refl).
    cbn [run_query wnet wstore trace]. unfold verdict_of.
    destruct (dict_get tables name) as [t | ] eqn:Ht; cbv iota beta.
    + change (negb (0 <? shape0 (mkDF [LName "name"] [[JStr name]]))) with false.
      cbv iota. unfold bind at 1.
      rewrite (@read_sql_query_run (SelectAll name) _ tables) by reflexivity.
      cbn [run_query wnet wstore trace]. rewrite Ht.
      unfold bind at 1, lift_result.
      destruct (table_verdict name new_df (frame_of_table t)) as [v | e].
      * apply IH. reflexivity.
      * eexists. reflexivity.
    + change (negb (0 <? shape0 (mkDF [LName "name"] []))) with true.
      cbv iota. apply IH. reflexivity.
Qed.

(** Every fetched table gets the verdict of its rule, and no other key is
    touched. *)
Lemma verdicts_lookup (tables : dict table) :
  forall items acc u,
    verdicts tables items acc = Ok u ->
    NoDup (dict_keys items) ->
    (forall name new_df, In (name, new_df) items ->
       exists v, verdict_of tables name new_df = Ok v
                 /\ dict_get u name = Some v)
    /\ (forall name, ~ In name (dict_keys items) ->
          dict_get u name = dict_get acc name).
Proof.
  induction items as [ | [n d] rest IH]; simpl; intros acc u Hv Hnd.
  - injection Hv as <-. split; [contradiction | reflexivity].
  - inversion Hnd as [ | ? ? Hnotin Hnd']; subst.
    destruct (verdict_of tables n d) as [v | e] eqn:Hvd; [ | discriminate].
    destruct (IH _ _ Hv Hnd') as [Hin Hout]. split.
    + intros name new_df [E | Hrest].
      * injection E as <- <-. exists v. split; [assumption | ].
        rewrite (Hout n Hnotin). apply dict_get_set_same.
      * apply Hin. assumption.
    + intros name Hname. rewrite Hout by tauto.
      apply dict_get_set_other. tauto.
Qed.

(** The loop aborts only on the players table. *)
Lemma verdict_of_ok (tables : dict table) name new_df :
  (name = "football_players" ->
   forall t, dict_get tables name = Some t ->
     has_column new_df "total_points" = true
     /\ has_column (frame_of_table t) "total_points" = true) ->
  exists v, verdict_of tables name new_df = Ok v.
Proof.
  intros H. unfold verdict_of.
  destruct (dict_get tables name) as [t | ] eqn:Ht; [ | eexists; reflexivity].
  unfold table_verdict.
  destruct (String.eqb name "game_weeks"); [eexists; reflexivity | ].
  destruct (String.eqb name "football_players") eqn:E; [ | eexists; reflexivity].
  apply String.eqb_eq in E. destruct (H E t eq_refl) as [H1 H2].
  unfold has_column in H1, H2. unfold getitem.
  destruct (label_index (LName "total_points") (columns new_df)); [ | discriminate].
  destruct (label_index (LName "total_points") (columns (frame_of_table t)));
    [ | discriminate].
  eexists. reflexivity.
Qed.

Lemma verdicts_ok (tables : dict table) :
  forall items acc,
    (forall new_df t,
        In ("football_players", new_df) items ->
        dict_get tables "football_players" = Some t ->
        has_column new_df "total_points" = true
        /\ has_column (frame_of_table t) "total_points" = true) ->
    exists u, verdicts tables items acc = Ok u.
Proof.
  induction items as [ | [n d] rest IH]; simpl; intros acc H.
  - eexists. reflexivity.
  - destruct (@verdict_of_ok tables n d) as [v Hv].
    + intros -> t Ht. apply (H d t); [left; reflexivity | assumption].
    + rewrite Hv. apply IH. intros new_df t Hin. apply H. right. assumption.
Qed.

(* ===================================================================== *)
(** ** check_for_updates as a whole *)
(* ===================================================================== *)

(** What the [try] block does once the store opens and the fetch returns a
    non-empty table set. *)
Lemma check_for_updates_try_run self w fetch tables api n' :
  a_get_fpl_data self = Some fetch ->
  db (wstore w) = Some tables ->
  fetch (wnet w) = (Ok (Some api), n') ->
  api <> [] ->
  exists tr,
    check_for_updates_try self w
    = (verdicts tables api [], mkWorld n' (mkStore (Some tables) tr)).
Proof.
  intros Hb Hdb Hf Hne. destruct w as [n [d tr]]. simpl in Hdb, Hf. subst d.
  unfold check_for_updates_try. rewrite Hb.
  unfold bind at 1. unfold sqlite3_connect. cbn [wstore db wnet trace].
  unfold bind at 1. cbn [load_attr ret].
  unfold bind at 1. unfold liftF. cbn [wnet wstore]. rewrite Hf.
  destruct api as [ | p api]; [congruence | ].
  cbn [no_tables dict_falsy tables_of].
  destruct (@check_tables_run tables (p :: api) []
              (mkWorld n' (mkStore (Some tables) (tr ++ [EConnect]))) eq_refl)
    as [tr' Htr'].
  exists tr'. exact Htr'.
Qed.

Lemma check_for_updates_run self w fetch tables api n' :
  a_get_fpl_data self = Some fetch ->
  db (wstore w) = Some tables ->
  fetch (wnet w) = (Ok (Some api), n') ->
  api <> [] ->
  fst (check_for_updates self w)
  = Ok (match verdicts tables api [] with Ok u => u | Raise _ => [] end).
Proof.
  intros Hb Hdb Hf Hne.
  destruct (check_for_updates_try_run _ _ _ _ _ _ Hb Hdb Hf Hne) as [tr Htr].
  unfold check_for_updates, try_except. rewrite Htr.
  destruct (verdicts tables api []); reflexivity.
Qed.



Section ChangeDetector.

(** The object, the world it runs in, what its [get_fpl_data] attribute is
    bound to and returns there, and the tables of the store. *)
Variables (self : instance) (w : world) (fetch : F (option TableSet)).
Variables (tables : dict table) (api : TableSet) (n' : net).

Hypothesis Hbound : a_get_fpl_data self = Some fetch.
Hypothesis Hstore : db (wstore w) = Some tables.
Hypothesis Hfetch : fetch (wnet w) = (Ok (Some api), n').
Hypothesis Hnodup : NoDup (dict_keys api).
Hypothesis Hcomparable : comparable tables api.

(** Under these conditions the operation returns the verdict of every
    fetched table. *)
Lemma detector_verdicts name new_df :
  In (name, new_df) api ->
  exists u v,
    fst (check_for_updates self w) = Ok u
    /\ verdict_of tables name new_df = Ok v
    /\ dict_get u name = Some v.
Proof.
  intros Hin.
  assert (Hne : api <> []) by (intros E; rewrite E in Hin; exact Hin).
  destruct (@verdicts_ok tables api [] Hcomparable) as [u Hu].
  destruct (verdicts_lookup _ _ _ _ Hu Hnodup) as [Hall _].
  destruct (Hall _ _ Hin) as [v [Hv Hget]].
  exists u, v. split; [ | split; assumption].
  rewrite (check_for_updates_run _ _ _ _ _ _ Hbound Hstore Hfetch Hne), Hu.
  reflexivity.
Qed.



(** C4. For any other table that is in the store, [check_for_updates] gives
    the verdict true exactly when the fetched frame and the stored table
    have different numbers of rows. *)
Theorem other_table_verdict_iff_row_count_differs name fresh stored :
  name <> "game_weeks" ->
  name <> "football_players" ->
  In (name, fresh) api ->
  dict_get tables name = Some stored ->
  exists u v,
    fst (check_for_updates self w) = Ok u
    /\ dict_get u name = Some v
    /\ (v = true <-> List.length (rows fresh) <> List.length (trows stored)).
Proof.
  intros Hgw Hfp Hin Hst.
  destruct (detector_verdicts _ _ Hin) as [u [v [Hrun [Hv Hget]]]].
  unfold verdict_of in Hv. rewrite Hst in Hv. unfold table_verdict in Hv.
  apply String.eqb_neq in Hgw, Hfp. rewrite Hgw, Hfp in Hv.
  injection Hv as Hv.
  exists u, v. repeat split; try assumption.
  - intros ->. apply negb_true_iff, Z.eqb_neq in Hv.
    unfold shape0, frame_of_table in Hv. simpl in Hv.
    rewrite length_map in Hv. intros E. apply Hv. rewrite E. reflexivity.
  - intros Hlen. rewrite <- Hv. apply negb_true_iff, Z.eqb_neq.
    unfold shape0, frame_of_table. simpl. rewrite length_map.
    intros E. apply Hlen. apply Nat2Z.inj. exact E.
Qed.

(** C5. A fetched table that the store does not have gets the verdict true
    from [check_for_updates], whatever it holds. *)
Theorem absent_table_verdict_true name fresh :
  In (name, fresh) api ->
  dict_get tables name = None ->
  exists u,
    fst (check_for_updates self w) = Ok u
    /\ dict_get u name = Some true.
Proof.
  intros Hin Hst.
  destruct (detector_verdicts _ _ Hin) as [u [v [Hrun [Hv Hget]]]].
  unfold verdict_of in Hv. rewrite Hst in Hv. injection Hv as <-.
  exists u. split; assumption.
Qed.

End ChangeDetector.

(** *** The scenario meets the conditions of the section *)

Lemma scenario_fetch :
  get_fpl_data (mkInstance (Some api_root) (Some default_endpoints) None None
                           (Some _make_request) None None)
               (wnet scenario_world)
  = (Ok (Some scenario_api), mkNet scenario_remote 1 []).
Proof. vm_compute. reflexivity. Qed.

Lemma scenario_nodup : NoDup (dict_keys scenario_api).
Proof.
  simpl. repeat (constructor; [simpl; intuition discriminate | ]). constructor.
Qed.

Lemma scenario_comparable : comparable scenario_tables scenario_api.
Proof.
  intros new_df t Hin Ht. simpl in Ht. injection Ht as <-.
  simpl in Hin.
  repeat (destruct Hin as [E | Hin];
          [try discriminate E; injection E as <-; split; reflexivity | ]).
  contradiction.
Qed.

Ltac scenario_conditions :=
  first [ exact scenario_fetch | exact scenario_nodup
        | exact scenario_comparable | reflexivity
        | discriminate | (simpl; tauto) ].



(** The scenario of the twenty teams: one [points] value changed, the row
    counts are equal, the verdict is false. *)
Lemma other_table_verdict_witness :
  scenario_teams
    <> frame_of_table (mkTable ["id"; "points"] (map stored_team team_ids))
  /\ exists u,
       fst (check_for_updates scenario_self scenario_world) = Ok u
       /\ dict_get u "football_teams" = Some false.
Proof.
  split; [vm_compute; discriminate | ].
  destruct (other_table_verdict_iff_row_count_differs
              scenario_self scenario_world _ scenario_tables scenario_api _
              eq_refl eq_refl scenario_fetch scenario_nodup scenario_comparable
              "football_teams" scenario_teams
              (mkTable ["id"; "points"] (map stored_team team_ids)))
    as [u [v [Hrun [Hget Hiff]]]]; try scenario_conditions.
  exists u. split; [exact Hrun | ].
  rewrite Hget. f_equal. destruct v; [ | reflexivity].
  exfalso. apply (proj1 Hiff eq_refl). reflexivity.
Defined.

Lemma absent_table_verdict_witness :
  exists u,
    fst (check_for_updates scenario_self scenario_world) = Ok u
    /\ dict_get u "chips" = Some true.
Proof.
  apply (absent_table_verdict_true
           scenario_self scenario_world _ scenario_tables scenario_api _
           eq_refl eq_refl scenario_fetch scenario_nodup scenario_comparable
           "chips" (mkDF [LName "id"; LName "name"] [[JInt 1; JStr "wildcard"]]));
    scenario_conditions.
Defined.

(* ===================================================================== *)
(** ** Failures of check_for_updates *)
(* ===================================================================== *)

(** Whatever the [try] block does, the method returns. *)
Lemma check_for_updates_total self w :
  exists u w', check_for_updates self w = (Ok u, w').
Proof.
  unfold check_for_updates, try_except.
  destruct (check_for_updates_try self w) as [[u | e] w1].
  - exists u, w1. reflexivity.
  - eexists. eexists. reflexivity.
Qed.

(** An exception in the [try] block gives the empty dict and one printed
    line; the store side is as the block left it. *)
Lemma check_for_updates_recovers self w e w1 :
  check_for_updates_try self w = (Raise e, w1) ->
  check_for_updates self w
  = (Ok [],
     mkWorld (mkNet (remote (wnet w1)) (clock (wnet w1))
                    (out (wnet w1)
                       ++ ["Error checking for updates: " +++ str_exn e]))
             (wstore w1)).
Proof.
  intros H. unfold check_for_updates, try_except. rewrite H. reflexivity.
Qed.

Lemma check_for_updates_passes self w u w1 :
  check_for_updates_try self w = (Ok u, w1) ->
  check_for_updates self w = (Ok u, w1).
Proof.
  intros H. unfold check_for_updates, try_except. rewrite H. reflexivity.
Qed.

(** The [try] block, case by case. *)
Lemma try_store_unreachable self w :
  db (wstore w) = None ->
  check_for_updates_try self w
  = (Raise (OperationalError "unable to open database file"), w).
Proof.
  intros H. unfold check_for_updates_try, bind, sqlite3_connect.
  rewrite H. reflexivity.
Qed.

Lemma try_no_attribute self w tables :
  db (wstore w) = Some tables ->
  a_get_fpl_data self = None ->
  check_for_updates_try self w
  = (Raise (AttributeError "get_fpl_data"), mkWorld (wnet w) (connected w)).
Proof.
  intros Hdb Ha. unfold check_for_updates_try, connected.
  unfold bind at 1. unfold sqlite3_connect. rewrite Hdb, Ha. reflexivity.
Qed.

Lemma try_fetch_result self w tables fetch r n1 :
  db (wstore w) = Some tables ->
  a_get_fpl_data self = Some fetch ->
  fetch (wnet w) = (r, n1) ->
  (forall api, r <> Ok (Some api)) ->
  check_for_updates_try self w
  = (match r with Ok _ => Ok [] | Raise e => Raise e end,
     mkWorld n1 (connected w)).
Proof.
  intros Hdb Ha Hf Hr. unfold check_for_updates_try, connected.
  unfold bind at 1. unfold sqlite3_connect. rewrite Hdb, Ha.
  unfold bind at 1. cbn [load_attr ret].
  unfold bind at 1. unfold liftF. cbn [wnet wstore]. rewrite Hf.
  destruct r as [[api | ] | e]; [exfalso; apply (Hr api); reflexivity | | ];
    reflexivity.
Qed.

Lemma try_fetch_empty self w tables fetch n1 :
  db (wstore w) = Some tables ->
  a_get_fpl_data self = Some fetch ->
  fetch (wnet w) = (Ok (Some []), n1) ->
  check_for_updates_try self w = (Ok [], mkWorld n1 (connected w)).
Proof.
  intros Hdb Ha Hf. unfold check_for_updates_try, connected.
  unfold bind at 1. unfold sqlite3_connect. rewrite Hdb, Ha.
  unfold bind at 1. cbn [load_attr ret].
  unfold bind at 1. unfold liftF. cbn [wnet wstore]. rewrite Hf.
  reflexivity.
Qed.

Lemma reads_app tr1 tr2 : reads (tr1 ++ tr2) = reads tr1 ++ reads tr2.
Proof.
  induction tr1 as [ | [ | sql] tr1 IH]; simpl; [reflexivity | exact IH | ].
  rewrite IH. reflexivity.
Qed.

Lemma reads_connected w : reads (trace (connected w)) = reads (trace (wstore w)).
Proof. unfold connected. simpl. rewrite reads_app. simpl. apply app_nil_r. Qed.

(** Once the loop is through, every fetched table has a verdict. *)
Lemma verdicts_covers (tables : dict table) :
  forall items acc u,
    verdicts tables items acc = Ok u ->
    forall name,
      In name (dict_keys items) \/ (exists v, dict_get acc name = Some v) ->
      exists v, dict_get u name = Some v.
Proof.
  induction items as [ | [n d] rest IH]; simpl; intros acc u Hv name Hname.
  - injection Hv as <-. destruct Hname as [[] | H]. exact H.
  - destruct (verdict_of tables n d) as [v0 | e]; [ | discriminate].
    apply (IH _ _ Hv). destruct (string_dec n name) as [-> | Hne].
    + right. exists v0. apply dict_get_set_same.
    + destruct Hname as [[E | Hin] | [v Hacc]].
      * contradiction.
      * left. exact Hin.
      * right. exists v. rewrite dict_get_set_other by exact Hne. exact Hacc.
Qed.

(** One table whose rule raises aborts the loop. *)
Lemma verdicts_raise (tables : dict table) :
  forall items acc name new_df e,
    In (name, new_df) items ->
    verdict_of tables name new_df = Raise e ->
    exists e', verdicts tables items acc = Raise e'.
Proof.
  induction items as [ | [n d] rest IH]; simpl; intros acc name new_df e Hin Hv.
  - contradiction.
  - destruct (verdict_of tables n d) as [v0 | e0] eqn:Hnd.
    + destruct Hin as [E | Hin].
      * injection E as -> ->. congruence.
      * apply (IH _ _ _ _ Hin Hv).
    + exists e0. reflexivity.
Qed.

(** The players rule raises when the column is not on both sides. *)
Lemma players_rule_raises (tables : dict table) new_df t :
  dict_get tables "football_players" = Some t ->
  has_column new_df "total_points" = false
  \/ has_column (frame_of_table t) "total_points" = false ->
  verdict_of tables "football_players" new_df = Raise (KeyError "total_points").
Proof.
  intros Ht Hmiss. unfold verdict_of. rewrite Ht.
  unfold table_verdict. simpl String.eqb. cbv iota.
  unfold has_column in Hmiss. unfold getitem.
  destruct (label_index (LName "total_points") (columns new_df)).
  - destruct Hmiss as [H | H]; [discriminate | ].
    destruct (label_index (LName "total_points") (columns (frame_of_table t)));
      [discriminate | reflexivity].
  - reflexivity.
Qed.

(** C6. [check_for_updates] always returns, and what it returns is the empty
    dict whenever its [try] block raises: when the store cannot be opened,
    when the fetch raises or returns nothing (and then no statement is sent
    to the store), when the players column is missing on either side.  A
    result that is not empty has a verdict for every fetched table. *)
Theorem check_for_updates_empty_on_failure self w :
  exists u w',
    check_for_updates self w = (Ok u, w')
    /\ (forall e w1, check_for_updates_try self w = (Raise e, w1) -> u = [])
    /\ (db (wstore w) = None -> u = [])
    /\ ((forall fetch api,
            a_get_fpl_data self = Some fetch ->
            fst (fetch (wnet w)) <> Ok (Some api)) ->
        u = [] /\ reads (trace (wstore w')) = reads (trace (wstore w)))
    /\ (forall fetch api n1 tables new_df t,
           db (wstore w) = Some tables ->
           a_get_fpl_data self = Some fetch ->
           fetch (wnet w) = (Ok (Some api), n1) ->
           In ("football_players", new_df) api ->
           dict_get tables "football_players" = Some t ->
           has_column new_df "total_points" = false
           \/ has_column (frame_of_table t) "total_points" = false ->
           u = [])
    /\ (forall fetch api n1,
           a_get_fpl_data self = Some fetch ->
           fetch (wnet w) = (Ok (Some api), n1) ->
           u = []
           \/ forall name, In name (dict_keys api) ->
                           exists v, dict_get u name = Some v).
Proof.
  destruct (check_for_updates_total self w) as [u [w' H]].
  exists u, w'. split; [exact H | ].
  assert (Hraise : forall e w1,
             check_for_updates_try self w = (Raise e, w1) ->
             u = [] /\ wstore w' = wstore w1).
  { intros e w1 Htry. rewrite (check_for_updates_recovers _ _ _ _ Htry) in H.
    injection H as <- <-. split; reflexivity. }
  assert (Hpass : forall u1 w1,
             check_for_updates_try self w = (Ok u1, w1) ->
             u = u1 /\ wstore w' = wstore w1).
  { intros u1 w1 Htry. rewrite (check_for_updates_passes _ _ _ _ Htry) in H.
    injection H as <- <-. split; reflexivity. }
  split; [intros e w1 Htry; apply (Hraise e w1 Htry) | ].
  split.
  { intros Hdb. apply (Hraise _ _ (try_store_unreachable self w Hdb)). }
  split.
  { intros Hfail. destruct (db (wstore w)) as [tables | ] eqn:Hdb.
    - destruct (a_get_fpl_data self) as [fetch | ] eqn:Ha.
      + destruct (fetch (wnet w)) as [r n1] eqn:Hf.
        assert (Hr : forall api, r <> Ok (Some api)).
        { intros api E. apply (Hfail fetch api eq_refl). rewrite Hf. exact E. }
        pose proof (try_fetch_result self w tables fetch r n1 Hdb Ha Hf Hr) as Htry.
        destruct r as [o | e].
        * destruct (Hpass _ _ Htry) as [-> ->]. split; [reflexivity | ].
          apply reads_connected.
        * destruct (Hraise _ _ Htry) as [-> ->]. split; [reflexivity | ].
          apply reads_connected.
      + destruct (Hraise _ _ (try_no_attribute self w tables Hdb Ha)) as [-> ->].
        split; [reflexivity | ]. apply reads_connected.
    - destruct (Hraise _ _ (try_store_unreachable self w Hdb)) as [-> ->].
      split; reflexivity. }
  split.
  { intros fetch api n1 tables new_df t Hdb Ha Hf Hin Ht Hmiss.
    assert (Hne : api <> []) by (intros E; rewrite E in Hin; exact Hin).
    destruct (check_for_updates_try_run _ _ _ _ _ _ Ha Hdb Hf Hne) as [tr Htry].
    destruct (verdicts_raise tables api [] _ _ _ Hin
                (players_rule_raises tables new_df t Ht Hmiss)) as [e' He'].
    rewrite He' in Htry. apply (Hraise _ _ Htry). }
  intros fetch api n1 Ha Hf.
  destruct (db (wstore w)) as [tables | ] eqn:Hdb.
  - destruct api as [ | p api].
    + left. apply (Hpass _ _ (try_fetch_empty self w tables fetch n1 Hdb Ha Hf)).
    + assert (Hne : p :: api <> []) by discriminate.
      destruct (check_for_updates_try_run _ _ _ _ _ _ Ha Hdb Hf Hne) as [tr Htry].
      destruct (verdicts tables (p :: api) []) as [u1 | e] eqn:Hv.
      * right. destruct (Hpass _ _ Htry) as [-> _].
        intros name Hname. apply (verdicts_covers tables _ _ _ Hv). left. exact Hname.
      * left. apply (Hraise _ _ Htry).
  - left. apply (Hraise _ _ (try_store_unreachable self w Hdb)).
Qed.

Lemma check_for_updates_empty_on_failure_witness :
  exists u w',
    check_for_updates scenario_self
      (mkWorld (mkNet (fun _ _ => Reply 503 None) O [])
               (mkStore (Some scenario_tables) []))
    = (Ok u, w')
    /\ u = []
    /\ reads (trace (wstore w')) = [].
Proof.
  destruct (check_for_updates_empty_on_failure scenario_self
              (mkWorld (mkNet (fun _ _ => Reply 503 None) O [])
                       (mkStore (Some scenario_tables) [])))
    as [u [w' [H [_ [_ [Hfetch _]]]]]].
  exists u, w'. split; [exact H | ].
  apply Hfetch. intros fetch api Ha. injection Ha as <-.
  vm_compute. discriminate.
Defined.

(* ===================================================================== *)
(** ** get_last_updated_gameweek *)
(* ===================================================================== *)








(* ===================================================================== *)
(** ** get_manager_gameweek_data *)
(* ===================================================================== *)

(** One turn of the loop never raises; it stores [field_value]. *)
Lemma extract_field_run data df_key data_key n :
  exists n',
    extract_field data df_key data_key n
    = (Ok (field_value data df_key data_key), n').
Proof.
  unfold extract_field, field_value, try_except.
  unfold bind at 1. unfold lift_result.
  destruct (contains data data_key) as [[ | ] | e];
    try (eexists; reflexivity).
  unfold bind at 1.
  destruct (subscript data data_key) as [v | e]; try (eexists; reflexivity).
  destruct (negb (is_none v)); try (eexists; reflexivity).
  unfold bind at 1.
  destruct (field_frame df_key v) as [df | e]; eexists; reflexivity.
Qed.

Lemma extract_fields_run data :
  forall mapping acc n,
    exists n',
      extract_fields data mapping acc n
      = (Ok (fold_left
               (fun a p => dict_set a (fst p)
                                    (field_value data (fst p) (snd p)))
               mapping acc), n').
Proof.
  induction mapping as [ | [df_key data_key] rest IH]; intros acc n.
  - eexists. reflexivity.
  - cbn [extract_fields fold_left fst snd]. unfold bind at 1.
    destruct (extract_field_run data df_key data_key n) as [n1 ->].
    apply IH.
Qed.


Lemma contains_when_subscript data key v :
  subscript data key = Ok v -> contains data key = Ok true.
Proof.
  destruct data; simpl; try discriminate.
  destruct (dict_get fields key); [reflexivity | discriminate].
Qed.




(* ===================================================================== *)
(** ** sync_database *)
(* ===================================================================== *)

Create HintDb keeps.

Lemma keeps_ret {A} (a : A) : keeps_db (ret a).
Proof. intros w. reflexivity. Qed.

Lemma keeps_raise {A} (e : exn) : keeps_db (@raise world A e).
Proof. intros w. reflexivity. Qed.

Lemma keeps_lift_result {A} (r : result A) : keeps_db (lift_result r).
Proof. intros w. reflexivity. Qed.

Lemma keeps_liftF {A} (f : F A) : keeps_db (liftF f).
Proof. intros w. unfold liftF. destruct (f (wnet w)). reflexivity. Qed.

Lemma keeps_bind {A B} (m : M A) (k : A -> M B) :
  keeps_db m -> (forall a, keeps_db (k a)) -> keeps_db (bind m k).
Proof.
  intros Hm Hk w. unfold bind. specialize (Hm w).
  destruct (m w) as [[a | e] w1]; simpl in Hm.
  - rewrite Hk. exact Hm.
  - exact Hm.
Qed.

Lemma keeps_try_except {A} (m : M A) (h : exn -> M A) :
  keeps_db m -> (forall e, keeps_db (h e)) -> keeps_db (try_except m h).
Proof.
  intros Hm Hh w. unfold try_except. specialize (Hm w).
  destruct (m w) as [[a | e] w1]; simpl in Hm.
  - exact Hm.
  - rewrite Hh. exact Hm.
Qed.

Lemma keeps_connect : keeps_db sqlite3_connect.
Proof.
  intros w. unfold sqlite3_connect. destruct (db (wstore w)) eqn:E; simpl.
  - reflexivity.
  - exact E.
Qed.

Lemma keeps_read_sql_query q : keeps_db (read_sql_query q).
Proof. intros w. unfold read_sql_query. destruct (db (wstore w)); reflexivity. Qed.

Lemma keeps_load_attr {A} name (slot : option A) : keeps_db (load_attr name slot).
Proof. destruct slot; intros w; reflexivity. Qed.

Lemma keeps_dict_item {V} (d : dict V) k : keeps_db (dict_item d k).
Proof. unfold dict_item. destruct (dict_get d k); intros w; reflexivity. Qed.

#[local] Hint Resolve keeps_ret keeps_raise keeps_lift_result keeps_liftF
  keeps_connect keeps_read_sql_query keeps_load_attr keeps_dict_item : keeps.

Ltac keeps_bind_step x :=
  apply keeps_bind; [solve [auto with keeps] | intros x].

Lemma keeps_check_tables : forall items acc, keeps_db (check_tables items acc).
Proof.
  induction items as [ | [name new_df] rest IH]; intros acc; simpl.
  - auto with keeps.
  - keeps_bind_step found.
    destruct (negb (0 <? shape0 found)); [apply IH | ].
    keeps_bind_step existing_df. keeps_bind_step verdict. apply IH.
Qed.

Lemma keeps_check_for_updates self : keeps_db (check_for_updates self).
Proof.
  unfold check_for_updates, check_for_updates_try, check_for_updates_except.
  apply keeps_try_except.
  - keeps_bind_step conn. keeps_bind_step fetch. keeps_bind_step api_data.
    destruct (no_tables api_data); [auto with keeps | apply keeps_check_tables].
  - intros e. keeps_bind_step u. auto with keeps.
Qed.

Lemma keeps_build_update_dict new_data :
  forall tables acc, keeps_db (build_update_dict new_data tables acc).
Proof.
  induction tables as [ | t rest IH]; intros acc; simpl.
  - auto with keeps.
  - keeps_bind_step df. apply IH.
Qed.

Lemma keeps_sync_database self specific_tables :
  keeps_db (sync_database self specific_tables).
Proof.
  unfold sync_database.
  apply keeps_bind; [apply keeps_check_for_updates | intros updates].
  destruct (dict_falsy updates); [auto with keeps | ].
  destruct (filter _ _); [auto with keeps | ].
  keeps_bind_step u. keeps_bind_step fetch. keeps_bind_step new_data.
  destruct (no_tables new_data); [auto with keeps | ].
  apply keeps_bind; [apply keeps_build_update_dict | intros update_dict].
  auto with keeps.
Qed.

(** C1, on the code as it is.  [sync_database] never changes a table of the
    store: in the scenario the table [chips] is fetched, is not in the
    store and is announced as updated, and after the call the store still
    has no such table. *)
Theorem sync_database_leaves_store_unchanged :
  (forall self specific_tables w,
      db (wstore (snd (sync_database self specific_tables w))) = db (wstore w))
  /\ (exists u,
         fst (check_for_updates scenario_self scenario_world) = Ok u
         /\ dict_get u "chips" = Some true)
  /\ fst (sync_database scenario_self None scenario_world) = Ok tt
  /\ out (wnet (snd (sync_database scenario_self None scenario_world)))
     = ["Updating tables: chips, game_weeks, element_types, element_stats"]
  /\ db (wstore (snd (sync_database scenario_self None scenario_world)))
     = Some scenario_tables
  /\ dict_get scenario_tables "chips" = None.
Proof.
  split; [intros self st w; apply keeps_sync_database | ].
  split; [eexists; split; vm_compute; reflexivity | ].
  repeat split; vm_compute; reflexivity.
Qed.


(* ===================================================================== *)
(** ** Where failures are recovered and where they are not *)
(* ===================================================================== *)








(** The constructor as it is written stops at line 16. *)
Lemma init_raises base_url w :
  __init__ base_url w = (Raise (UnboundLocalError "get_fpl_data"), w).
Proof. reflexivity. Qed.




(* ===================================================================== *)
(** ** Further properties: _get_current_gameweek *)
(* ===================================================================== *)

Lemma filter_own_column {A B} (f : A -> B) (g : B -> bool) (l : list A) :
  map fst (filter (fun p => g (snd p)) (combine l (map f l)))
  = filter (fun x => g (f x)) l.
Proof.
  induction l as [ | x l IH]; simpl; [reflexivity | ].
  destruct (g (f x)); simpl; rewrite IH; reflexivity.
Qed.

Lemma forallb_own_column (c : nat) (l : list (list json)) :
  (forall x, In x l -> is_bool (nth c x JNull) = true) ->
  forallb is_bool (map (fun r => nth c r JNull) l) = true.
Proof.
  intros H. apply forallb_forall. intros v Hv.
  apply in_map_iff in Hv. destruct Hv as [x [<- Hx]]. apply H. exact Hx.
Qed.

Lemma filter_none {A} (g : A -> bool) (l : list A) :
  (forall x, In x l -> g x = false) -> filter g l = [].
Proof.
  induction l as [ | x l IH]; simpl; intros H; [reflexivity | ].
  rewrite (H x (or_introl eq_refl)). apply IH. intros y Hy. apply H. right. exact Hy.
Qed.

(** What the function does once [main_data] holds a [game_weeks] frame with
    boolean flags: it keeps the rows flagged current and reads [id] off the
    first. *)
Lemma get_current_gameweek_run self n d df c :
  a_main_data self = Some (Some d) ->
  d <> [] ->
  dict_get d "game_weeks" = Some df ->
  label_index (LName "is_current") (columns df) = Some c ->
  (forall x, In x (rows df) -> is_bool (nth c x JNull) = true) ->
  _get_current_gameweek self n
  = (match filter (fun r => json_eqb (nth c r JNull) (JBool true)) (rows df) with
     | r :: _ => row_getitem (columns df) r "id"
     | [] => Raise (ValueError "single positional indexer is out-of-bounds")
     end, n).
Proof.
  intros Hmd Hne Hgw Hc Hbool. unfold _get_current_gameweek. rewrite Hmd.
  unfold bind at 1. cbn [load_attr ret].
  destruct d as [ | p d]; [congruence | ].
  cbn [no_tables dict_falsy tables_of].
  unfold bind at 1. unfold dict_item. rewrite Hgw. cbn [ret].
  unfold bind at 1. unfold lift_result at 1. unfold getitem. rewrite Hc.
  unfold bind at 1. unfold lift_result at 1. unfold mask_rows.
  rewrite (forallb_own_column c (rows df) Hbool).
  rewrite (filter_own_column (fun r => nth c r JNull)
             (fun v => json_eqb v (JBool true)) (rows df)).
  unfold bind at 1. unfold lift_result at 1. unfold frame_iloc0. cbn [rows columns].
  destruct (filter _ (rows df)) as [ | r rest]; reflexivity.
Qed.

(** X1. With boolean [is_current] flags, [_get_current_gameweek] returns the
    [id] of the first row of [game_weeks] that is flagged current, whatever
    follows that row, and touches neither the network nor the output. *)
Theorem current_gameweek_is_first_flagged self n d df c i pre r post :
  a_main_data self = Some (Some d) ->
  d <> [] ->
  dict_get d "game_weeks" = Some df ->
  label_index (LName "is_current") (columns df) = Some c ->
  label_index (LName "id") (columns df) = Some i ->
  rows df = pre ++ r :: post ->
  (forall x, In x (rows df) -> is_bool (nth c x JNull) = true) ->
  (forall x, In x pre -> nth c x JNull = JBool false) ->
  nth c r JNull = JBool true ->
  _get_current_gameweek self n = (Ok (nth i r JNull), n).
Proof.
  intros Hmd Hne Hgw Hc Hi Hrows Hbool Hpre Hr.
  rewrite (get_current_gameweek_run self n d df c Hmd Hne Hgw Hc Hbool).
  rewrite Hrows, filter_app.
  rewrite (filter_none (fun r0 => json_eqb (nth c r0 JNull) (JBool true)) pre).
  - simpl. rewrite Hr. simpl. unfold row_getitem. rewrite Hi. reflexivity.
  - intros x Hx. rewrite (Hpre x Hx). reflexivity.
Qed.

Lemma current_gameweek_is_first_flagged_witness :
  _get_current_gameweek
    (mkInstance (Some api_root) (Some default_endpoints)
       (Some (Some [("game_weeks",
                     mkDF [LName "id"; LName "is_current"]
                          [[JInt 1; JBool false]; [JInt 2; JBool true]])]))
       None None None None)
    (mkNet scenario_remote O [])
  = (Ok (JInt 2), mkNet scenario_remote O []).
Proof.
  apply (current_gameweek_is_first_flagged _ _
           [("game_weeks",
             mkDF [LName "id"; LName "is_current"]
                  [[JInt 1; JBool false]; [JInt 2; JBool true]])]
           (mkDF [LName "id"; LName "is_current"]
                 [[JInt 1; JBool false]; [JInt 2; JBool true]])
           1%nat O [[JInt 1; JBool false]] [JInt 2; JBool true] []);
    try reflexivity; try discriminate.
  - simpl. intros x [<- | [<- | []]]; reflexivity.
  - simpl. intros x [<- | []]. reflexivity.
Defined.



(* ===================================================================== *)
(** ** Further properties: the fetchers *)
(* ===================================================================== *)

Create HintDb requests.

Lemma no_request_ret {A} (a : A) : no_request (ret a).
Proof. intros n. split; reflexivity. Qed.

Lemma no_request_raise {A} (e : exn) : no_request (@raise net A e).
Proof. intros n. split; reflexivity. Qed.

Lemma no_request_lift_result {A} (r : result A) : no_request (lift_result r).
Proof. intros n. split; reflexivity. Qed.

Lemma no_request_print line : no_request (print line).
Proof. intros n. split; reflexivity. Qed.

Lemma no_request_frame_at data key : no_request (frame_at data key).
Proof.
  intros n. unfold frame_at, bind, lift_result.
  destruct (subscript data key); split; reflexivity.
Qed.

Lemma no_request_bind {A B} (m : F A) (k : A -> F B) :
  no_request m -> (forall a, no_request (k a)) -> no_request (bind m k).
Proof.
  intros Hm Hk n. unfold bind. destruct (Hm n) as [Hc Hr].
  destruct (m n) as [[a | e] n1]; simpl in Hc, Hr.
  - destruct (Hk a n1) as [Hc' Hr']. split; congruence.
  - split; assumption.
Qed.

Lemma no_request_try_except {A} (m : F A) (h : exn -> F A) :
  no_request m -> (forall e, no_request (h e)) -> no_request (try_except m h).
Proof.
  intros Hm Hh n. unfold try_except. destruct (Hm n) as [Hc Hr].
  destruct (m n) as [[a | e] n1]; simpl in Hc, Hr.
  - split; assumption.
  - destruct (Hh e n1) as [Hc' Hr']. split; congruence.
Qed.

Lemma one_request_then {A B} (m : F A) (k : A -> F B) :
  one_request m -> (forall a, no_request (k a)) -> one_request (bind m k).
Proof.
  intros Hm Hk n. unfold bind. destruct (Hm n) as [Hc Hr].
  destruct (m n) as [[a | e] n1]; simpl in Hc, Hr.
  - destruct (Hk a n1) as [Hc' Hr']. split; congruence.
  - split; assumption.
Qed.

#[local] Hint Resolve no_request_ret no_request_raise no_request_lift_result
  no_request_print no_request_frame_at : requests.

Ltac quiet_bind x :=
  apply no_request_bind; [solve [auto with requests] | intros x].

(** One call of the helper is one request, whatever comes back. *)
Lemma one_request_make_request url : one_request (_make_request url).
Proof.
  intros n. unfold _make_request, bind, requests_get.
  destruct (remote n (clock n) url) as [st body | ]; cbn [fst snd].
  - destruct (st =? 200).
    + destruct body; split; reflexivity.
    + split; reflexivity.
  - split; reflexivity.
Qed.

Lemma no_request_extract_field data df_key data_key :
  no_request (extract_field data df_key data_key).
Proof.
  unfold extract_field. apply no_request_try_except.
  - quiet_bind present. destruct present; [ | auto with requests].
    quiet_bind v. destruct (negb (is_none v)); [ | auto with requests].
    quiet_bind df. auto with requests.
  - intros e. quiet_bind u. auto with requests.
Qed.

Lemma no_request_extract_fields data :
  forall mapping acc, no_request (extract_fields data mapping acc).
Proof.
  induction mapping as [ | [df_key data_key] rest IH]; intros acc; simpl.
  - auto with requests.
  - apply no_request_bind; [apply no_request_extract_field | intros t; apply IH].
Qed.

(** X3. On an object that has the helper, each of the four fetchers makes
    exactly one request per call, whatever the remote source answers (any
    status, a body that is not JSON, no answer, fields missing), and never
    asks again. *)
Theorem fetchers_make_one_request base :
  one_request (get_fpl_data (with_helpers base))
  /\ (forall league_id,
         one_request (get_league_standings (with_helpers base) league_id))
  /\ (forall manager_id,
         one_request (get_manager_history (with_helpers base) manager_id))
  /\ (forall manager_id event_id,
         one_request
           (get_manager_gameweek_data (with_helpers base) manager_id event_id)).
Proof.
  split; [ | split; [ | split]].
  - change (get_fpl_data (with_helpers base))
      with (bind (_make_request (main_url base))
              (fun data =>
                 if truthy data then
                   bind (frame_at data "chips") (fun chips =>
                   bind (frame_at data "phases") (fun months =>
                   bind (frame_at data "elements") (fun football_players =>
                   bind (frame_at data "teams") (fun football_teams =>
                   bind (frame_at data "events") (fun game_weeks =>
                   bind (frame_at data "element_types") (fun element_types =>
                   bind (frame_at data "element_stats") (fun element_stats =>
                   ret (Some [ ("chips", chips);
                               ("months", months);
                               ("football_players", football_players);
                               ("football_teams", football_teams);
                               ("game_weeks", game_weeks);
                               ("element_types", element_types);
                               ("element_stats", element_stats) ]))))))))
                 else ret None)).
    apply one_request_then; [apply one_request_make_request | intros data].
    destruct (truthy data); [ | auto with requests].
    quiet_bind t1. quiet_bind t2. quiet_bind t3. quiet_bind t4.
    quiet_bind t5. quiet_bind t6. quiet_bind t7. auto with requests.
  - intros league_id.
    change (get_league_standings (with_helpers base) league_id)
      with (bind (_make_request (league_url base league_id))
              (fun data =>
                 if truthy data then
                   bind (lift_result (subscript data "league")) (fun league =>
                   bind (lift_result (pd_DataFrame (JList [league])))
                        (fun league_info =>
                   bind (lift_result (subscript data "standings")) (fun st =>
                   bind (frame_at st "results") (fun standings =>
                   ret (Some [ ("league_info", league_info);
                               ("standings", standings) ])))))
                 else ret None)).
    apply one_request_then; [apply one_request_make_request | intros data].
    destruct (truthy data); [ | auto with requests].
    quiet_bind t1. quiet_bind t2. quiet_bind t3. quiet_bind t4.
    auto with requests.
  - intros manager_id.
    change (get_manager_history (with_helpers base) manager_id)
      with (bind (_make_request (history_url base manager_id))
              (fun data =>
                 if truthy data then
                   bind (frame_at data "history") (fun current_season =>
                   bind (frame_at data "history_past") (fun past_seasons =>
                   bind (frame_at data "chips") (fun chips =>
                   ret (Some [ ("current_season", current_season);
                               ("past_seasons", past_seasons);
                               ("chips", chips) ]))))
                 else ret None)).
    apply one_request_then; [apply one_request_make_request | intros data].
    destruct (truthy data); [ | auto with requests].
    quiet_bind t1. quiet_bind t2. quiet_bind t3. auto with requests.
  - intros manager_id event_id.
    change (get_manager_gameweek_data (with_helpers base) manager_id event_id)
      with (bind (_make_request (picks_url base manager_id event_id))
              (fun data =>
                 if truthy data then
                   bind (extract_fields data data_mapping [])
                        (fun gameweek_data => ret (Some gameweek_data))
                 else ret None)).
    apply one_request_then; [apply one_request_make_request | intros data].
    destruct (truthy data); [ | auto with requests].
    apply no_request_bind; [apply no_request_extract_fields | intros gd].
    auto with requests.
Qed.

Lemma frame_at_run {S} data key (s : S) :
  frame_at data key s = (frame_of_field data key, s).
Proof.
  unfold frame_at, frame_of_field, rbind, bind, lift_result.
  destruct (subscript data key); reflexivity.
Qed.

(** After its request [get_fpl_data] is [main_tables]. *)
Lemma get_fpl_data_run self n base eps main request data n1 :
  a_base_url self = Some base ->
  a_endpoints self = Some eps ->
  dict_get eps "main" = Some main ->
  a__make_request self = Some request ->
  request (base +++ main) n = (Ok data, n1) ->
  truthy data = true ->
  get_fpl_data self n
  = (match main_tables data with
     | Ok t => Ok (Some t)
     | Raise e => Raise e
     end, n1).
Proof.
  intros Hbase Heps Hmain Hreq Hrun Htruthy.
  unfold get_fpl_data. rewrite Hbase, Heps, Hreq.
  unfold bind at 1. cbn [load_attr ret].
  unfold bind at 1. cbn [load_attr ret].
  unfold bind at 1. unfold dict_item. rewrite Hmain. cbn [ret].
  unfold bind at 1. cbn [ret].
  unfold bind at 1. rewrite Hrun, Htruthy.
  unfold main_tables.
  repeat (unfold bind at 1; rewrite frame_at_run;
          match goal with
          | |- context [frame_of_field data ?k] =>
              destruct (frame_of_field data k); cbn [rbind]; [ | reflexivity]
          end).
  reflexivity.
Qed.

Lemma pd_DataFrame_records l :
  forallb is_dict l = true ->
  pd_DataFrame (JList l)
  = Ok (mkDF (map LName (union_keys l)) (map (record_row (union_keys l)) l)).
Proof.
  intros Hall. destruct l as [ | first rest]; [reflexivity | ].
  unfold pd_DataFrame. rewrite Hall. simpl in Hall.
  apply andb_true_iff in Hall. destruct Hall as [-> _]. reflexivity.
Qed.

Lemma frame_of_field_records data key l :
  subscript data key = Ok (JList l) ->
  forallb is_dict l = true ->
  frame_of_field data key
  = Ok (mkDF (map LName (union_keys l)) (map (record_row (union_keys l)) l)).
Proof.
  intros Hsub Hall. unfold frame_of_field. rewrite Hsub. simpl rbind.
  apply pd_DataFrame_records. exact Hall.
Qed.

(** X4. When the response has the seven fields as lists of records,
    [get_fpl_data] returns the seven tables under the names [chips],
    [months], [football_players], [football_teams], [game_weeks],
    [element_types], [element_stats], in that order; the table of a field has
    one row per record of the field and the fields' keys as columns. *)
Theorem get_fpl_data_tables_follow_fields
        self n base eps main request data n1 :
  a_base_url self = Some base ->
  a_endpoints self = Some eps ->
  dict_get eps "main" = Some main ->
  a__make_request self = Some request ->
  request (base +++ main) n = (Ok data, n1) ->
  truthy data = true ->
  (forall field, In field main_fields ->
     exists l, subscript data field = Ok (JList l) /\ forallb is_dict l = true) ->
  exists t,
    get_fpl_data self n = (Ok (Some t), n1)
    /\ dict_keys t = dict_keys main_mapping
    /\ (forall name field l,
           In (name, field) main_mapping ->
           subscript data field = Ok (JList l) ->
           exists df,
             dict_get t name = Some df
             /\ List.length (rows df) = List.length l
             /\ columns df = map LName (union_keys l)).
Proof.
  intros Hbase Heps Hmain Hreq Hrun Htruthy Hfields.
  rewrite (get_fpl_data_run self n base eps main request data n1
             Hbase Heps Hmain Hreq Hrun Htruthy).
  assert (Hf : forall field, In field main_fields ->
             exists l, subscript data field = Ok (JList l)
                       /\ frame_of_field data field
                          = Ok (mkDF (map LName (union_keys l))
                                     (map (record_row (union_keys l)) l))).
  { intros field Hin. destruct (Hfields field Hin) as [l [Hsub Hall]].
    exists l. split; [exact Hsub | apply frame_of_field_records; assumption]. }
  destruct (Hf "chips") as [l1 [S1 E1]]; [simpl; tauto | ].
  destruct (Hf "phases") as [l2 [S2 E2]]; [simpl; tauto | ].
  destruct (Hf "elements") as [l3 [S3 E3]]; [simpl; tauto | ].
  destruct (Hf "teams") as [l4 [S4 E4]]; [simpl; tauto | ].
  destruct (Hf "events") as [l5 [S5 E5]]; [simpl; tauto | ].
  destruct (Hf "element_types") as [l6 [S6 E6]]; [simpl; tauto | ].
  destruct (Hf "element_stats") as [l7 [S7 E7]]; [simpl; tauto | ].
  unfold main_tables. rewrite E1, E2, E3, E4, E5, E6, E7. cbn [rbind].
  eexists. split; [reflexivity | ]. split; [reflexivity | ].
  intros name field l Hin Hsub. simpl in Hin.
  destruct Hin as [E | [E | [E | [E | [E | [E | [E | []]]]]]]];
    injection E as <- <-; eexists; (split; [reflexivity | ]);
    rewrite Hsub in *;
    match goal with
    | H : Ok (JList l) = Ok (JList _) |- _ => injection H as <-
    end;
    (split; [simpl; apply length_map | reflexivity]).
Qed.

Lemma get_fpl_data_tables_follow_fields_witness :
  exists t df,
    get_fpl_data (with_helpers api_root) (mkNet scenario_remote O [])
    = (Ok (Some t), mkNet scenario_remote 1 [])
    /\ dict_get t "football_teams" = Some df
    /\ List.length (rows df) = 20%nat.
Proof.
  destruct (get_fpl_data_tables_follow_fields
              (with_helpers api_root) (mkNet scenario_remote O [])
              api_root default_endpoints "bootstrap-static/" _make_request
              scenario_body (mkNet scenario_remote 1 [])
              eq_refl eq_refl eq_refl eq_refl eq_refl eq_refl)
    as [t [Hrun [_ Hrows]]].
  - simpl. intros field [<- | [<- | [<- | [<- | [<- | [<- | [<- | []]]]]]]];
      eexists; split; reflexivity.
  - destruct (Hrows "football_teams" "teams" (map fresh_team team_ids))
      as [df [Hget [Hlen _]]]; [simpl; tauto | reflexivity | ].
    exists t, df. split; [exact Hrun | ]. split; [exact Hget | ].
    rewrite Hlen. reflexivity.
Defined.

Lemma main_tables_raises data field e :
  In field main_fields ->
  subscript data field = Raise e ->
  exists e', main_tables data = Raise e'.
Proof.
  intros Hin Hsub.
  assert (Hraise : frame_of_field data field = Raise e).
  { unfold frame_of_field. rewrite Hsub. reflexivity. }
  unfold main_tables. simpl in Hin.
  repeat match goal with
         | |- exists e', rbind (frame_of_field data ?k) _ = Raise e' =>
             destruct (frame_of_field data k) eqn:?; cbn [rbind];
             [ | eexists; reflexivity]
         end.
  exfalso.
  destruct Hin as [E | [E | [E | [E | [E | [E | [E | []]]]]]]];
    subst field; congruence.
Qed.

(** X5. [get_fpl_data] gives all seven tables or none: when the response
    lacks one of the seven fields (or is not an object at all) the method
    raises, it returns no partial table set, and nothing is printed. *)
Theorem get_fpl_data_raises_on_missing_field
        self n base eps main request data n1 field e :
  a_base_url self = Some base ->
  a_endpoints self = Some eps ->
  dict_get eps "main" = Some main ->
  a__make_request self = Some request ->
  request (base +++ main) n = (Ok data, n1) ->
  truthy data = true ->
  In field main_fields ->
  subscript data field = Raise e ->
  exists e', get_fpl_data self n = (Raise e', n1).
Proof.
  intros Hbase Heps Hmain Hreq Hrun Htruthy Hin Hsub.
  rewrite (get_fpl_data_run self n base eps main request data n1
             Hbase Heps Hmain Hreq Hrun Htruthy).
  destruct (main_tables_raises data field e Hin Hsub) as [e' ->].
  exists e'. reflexivity.
Qed.

Lemma get_fpl_data_raises_on_missing_field_witness :
  exists e',
    get_fpl_data
      (with_helpers api_root)
      (mkNet (fun _ _ => Reply 200 (Some (JDict [("chips", JList [])]))) O [])
    = (Raise e',
       mkNet (fun _ _ => Reply 200 (Some (JDict [("chips", JList [])]))) 1 []).
Proof.
  apply (get_fpl_data_raises_on_missing_field
           (with_helpers api_root)
           (mkNet (fun _ _ => Reply 200 (Some (JDict [("chips", JList [])]))) O [])
           api_root default_endpoints "bootstrap-static/" _make_request
           (JDict [("chips", JList [])]) _ "phases" (KeyError "phases"));
    try reflexivity.
  simpl. tauto.
Defined.

(** A list of one value always makes a frame, of one row. *)
Lemma pd_DataFrame_singleton v :
  exists df, pd_DataFrame (JList [v]) = Ok df /\ List.length (rows df) = 1%nat.
Proof.
  unfold pd_DataFrame. destruct v; simpl; eexists; split; reflexivity.
Qed.

(** X6. When the response has a [league] field and a list of records under
    [standings.results], [get_league_standings] returns the two tables
    [league_info] and [standings]: [league_info] has exactly one row, whatever
    [league] holds, and [standings] one row per record. *)
Theorem get_league_standings_tables
        self league_id n base eps leagues request data n1 league st l :
  a_base_url self = Some base ->
  a_endpoints self = Some eps ->
  dict_get eps "leagues" = Some leagues ->
  a__make_request self = Some request ->
  request (base +++ leagues +++ str_int league_id +++ "/standings/") n
  = (Ok data, n1) ->
  truthy data = true ->
  subscript data "league" = Ok league ->
  subscript data "standings" = Ok st ->
  subscript st "results" = Ok (JList l) ->
  forallb is_dict l = true ->
  exists league_info standings,
    get_league_standings self league_id n
    = (Ok (Some [("league_info", league_info); ("standings", standings)]), n1)
    /\ List.length (rows league_info) = 1%nat
    /\ List.length (rows standings) = List.length l
    /\ columns standings = map LName (union_keys l).
Proof.
  intros Hbase Heps Hleagues Hreq Hrun Htruthy Hlg Hst Hres Hall.
  destruct (pd_DataFrame_singleton league) as [li [Hli Hone]].
  exists li. eexists. split; [ | split; [exact Hone | split]].
  - unfold get_league_standings. rewrite Hbase, Heps, Hreq.
    unfold bind at 1. cbn [load_attr ret].
    unfold bind at 1. cbn [load_attr ret].
    unfold bind at 1. unfold dict_item. rewrite Hleagues. cbn [ret].
    unfold bind at 1. cbn [ret].
    unfold bind at 1. rewrite Hrun, Htruthy.
    unfold bind at 1. unfold lift_result at 1. rewrite Hlg.
    unfold bind at 1. unfold lift_result at 1. rewrite Hli.
    unfold bind at 1. unfold lift_result at 1. rewrite Hst.
    unfold bind at 1. rewrite frame_at_run.
    rewrite (frame_of_field_records st "results" l Hres Hall).
    reflexivity.
  - simpl. apply length_map.
  - reflexivity.
Qed.

Lemma get_league_standings_tables_witness :
  exists league_info standings n1,
    get_league_standings
      (with_helpers api_root) 314
      (mkNet (fun _ _ =>
                Reply 200
                  (Some (JDict
                     [ ("league", JDict [("id", JInt 314); ("name", JStr "Overall")]);
                       ("standings",
                         JDict [("results",
                                  JList [ JDict [("entry", JInt 11); ("rank", JInt 1)];
                                          JDict [("entry", JInt 12); ("rank", JInt 2)];
                                          JDict [("entry", JInt 13); ("rank", JInt 3)] ])])
                     ])))
             O [])
    = (Ok (Some [("league_info", league_info); ("standings", standings)]), n1)
    /\ List.length (rows league_info) = 1%nat
    /\ List.length (rows standings) = 3%nat.
Proof.
  destruct (get_league_standings_tables
              (with_helpers api_root) 314
              (mkNet (fun _ _ =>
                Reply 200
                  (Some (JDict
                     [ ("league", JDict [("id", JInt 314); ("name", JStr "Overall")]);
                       ("standings",
                         JDict [("results",
                                  JList [ JDict [("entry", JInt 11); ("rank", JInt 1)];
                                          JDict [("entry", JInt 12); ("rank", JInt 2)];
                                          JDict [("entry", JInt 13); ("rank", JInt 3)] ])])
                     ])))
                 O [])
              api_root default_endpoints "leagues-classic/" _make_request
              _ _ _ _ _
              eq_refl eq_refl eq_refl eq_refl eq_refl eq_refl
              eq_refl eq_refl eq_refl eq_refl)
    as [li [sd [Hrun [Hone [Hlen _]]]]].
  exists li, sd. eexists. split; [exact Hrun | ]. split; [exact Hone | exact Hlen].
Defined.

(** X7. When the response has lists of records under [history],
    [history_past] and [chips], [get_manager_history] returns the three
    tables [current_season], [past_seasons] and [chips], each with one row
    per record; when one of the three fields is missing it raises and
    returns no table. *)
Theorem get_manager_history_tables
        self manager_id n base eps part request data n1 :
  a_base_url self = Some base ->
  a_endpoints self = Some eps ->
  dict_get eps "manager_history" = Some part ->
  a__make_request self = Some request ->
  request (base +++ part +++ str_int manager_id +++ "/" +++ part) n
  = (Ok data, n1) ->
  truthy data = true ->
  (forall l1 l2 l3,
      subscript data "history" = Ok (JList l1) ->
      subscript data "history_past" = Ok (JList l2) ->
      subscript data "chips" = Ok (JList l3) ->
      forallb is_dict l1 = true ->
      forallb is_dict l2 = true ->
      forallb is_dict l3 = true ->
      exists current_season past_seasons chips,
        get_manager_history self manager_id n
        = (Ok (Some [ ("current_season", current_season);
                      ("past_seasons", past_seasons);
                      ("chips", chips) ]), n1)
        /\ List.length (rows current_season) = List.length l1
        /\ List.length (rows past_seasons) = List.length l2
        /\ List.length (rows chips) = List.length l3)
  /\ (forall field e,
         In field ["history"; "history_past"; "chips"] ->
         subscript data field = Raise e ->
         exists e', get_manager_history self manager_id n = (Raise e', n1)).
Proof.
  intros Hbase Heps Hpart Hreq Hrun Htruthy.
  assert (Hshape :
            get_manager_history self manager_id n
            = (rbind (frame_of_field data "history") (fun current_season =>
               rbind (frame_of_field data "history_past") (fun past_seasons =>
               rbind (frame_of_field data "chips") (fun chips =>
               Ok (Some [ ("current_season", current_season);
                          ("past_seasons", past_seasons);
                          ("chips", chips) ])))), n1)).
  { unfold get_manager_history. rewrite Hbase, Heps, Hreq.
    unfold bind at 1. cbn [load_attr ret].
    unfold bind at 1. cbn [load_attr ret].
    unfold bind at 1. unfold dict_item. rewrite Hpart. cbn [ret].
    unfold bind at 1. cbn [ret].
    unfold bind at 1. cbn [ret].
    unfold bind at 1. rewrite Hrun, Htruthy.
    repeat (unfold bind at 1; rewrite frame_at_run;
            match goal with
            | |- context [frame_of_field data ?k] =>
                destruct (frame_of_field data k); cbn [rbind]; [ | reflexivity]
            end).
    reflexivity. }
  rewrite Hshape. split.
  - intros l1 l2 l3 H1 H2 H3 A1 A2 A3.
    rewrite (frame_of_field_records data "history" l1 H1 A1).
    rewrite (frame_of_field_records data "history_past" l2 H2 A2).
    rewrite (frame_of_field_records data "chips" l3 H3 A3).
    cbn [rbind]. eexists. eexists. eexists.
    split; [reflexivity | ].
    repeat split; simpl; apply length_map.
  - intros field e Hin Hsub.
    assert (Hraise : frame_of_field data field = Raise e).
    { unfold frame_of_field. rewrite Hsub. reflexivity. }
    repeat match goal with
           | |- exists e', (rbind (frame_of_field data ?k) _, _) = _ =>
               destruct (frame_of_field data k) eqn:?; cbn [rbind];
               [ | eexists; reflexivity]
           end.
    exfalso. simpl in Hin.
    destruct Hin as [E | [E | [E | []]]]; subst field; congruence.
Qed.

Lemma get_manager_history_tables_witness :
  exists e' n1,
    get_manager_history
      (with_helpers api_root) 42
      (mkNet (fun _ _ =>
                Reply 200 (Some (JDict [("history", JList []); ("chips", JList [])])))
             O [])
    = (Raise e', n1).
Proof.
  destruct (get_manager_history_tables
              (with_helpers api_root) 42
              (mkNet (fun _ _ =>
                Reply 200 (Some (JDict [("history", JList []); ("chips", JList [])])))
                 O [])
              api_root default_endpoints "history/" _make_request
              (JDict [("history", JList []); ("chips", JList [])]) _
              eq_refl eq_refl eq_refl eq_refl eq_refl eq_refl)
    as [_ Hmissing].
  destruct (Hmissing "history_past" (KeyError "history_past")) as [e' He'];
    [simpl; tauto | reflexivity | ].
  exists e'. eexists. exact He'.
Defined.

(** After its request [get_manager_gameweek_data] stores the four values
    of [field_value], in the order of the mapping. *)
Lemma get_manager_gameweek_data_run
      self manager_id event_id n base eps info request data n1 :
  a_base_url self = Some base ->
  a_endpoints self = Some eps ->
  dict_get eps "manager_info" = Some info ->
  a__make_request self = Some request ->
  request (base +++ info +++ str_int manager_id +++ "/event/"
                +++ str_int event_id +++ "/picks/") n = (Ok data, n1) ->
  truthy data = true ->
  exists n2,
    get_manager_gameweek_data self manager_id event_id n
    = (Ok (Some
             [ ("active_chips", field_value data "active_chips" "active_chip");
               ("automatic_subs",
                 field_value data "automatic_subs" "automatic_subs");
               ("event_history",
                 field_value data "event_history" "entry_history");
               ("player_picks", field_value data "player_picks" "picks") ]),
       n2).
Proof.
  intros Hbase Heps Hinfo Hreq Hrun Htruthy.
  destruct (extract_fields_run data data_mapping [] n1) as [n2 Hfields].
  exists n2. unfold get_manager_gameweek_data. rewrite Hbase, Heps, Hreq.
  unfold bind at 1. cbn [load_attr ret].
  unfold bind at 1. cbn [load_attr ret].
  unfold bind at 1. unfold dict_item. rewrite Hinfo. cbn [ret].
  unfold bind at 1. cbn [ret].
  unfold bind at 1. rewrite Hrun, Htruthy.
  unfold bind at 1. rewrite Hfields. reflexivity.
Qed.

Lemma is_none_false v : v <> JNull -> is_none v = false.
Proof. destruct v; simpl; congruence. Qed.

(** X8. Whatever JSON value the response holds under [entry_history] (an
    object, a list, a number, a string), as long as it is not null the table
    [event_history] of [get_manager_gameweek_data] is a frame with exactly
    one row. *)
Theorem event_history_has_one_row
        self manager_id event_id n base eps info request data n1 v :
  a_base_url self = Some base ->
  a_endpoints self = Some eps ->
  dict_get eps "manager_info" = Some info ->
  a__make_request self = Some request ->
  request (base +++ info +++ str_int manager_id +++ "/event/"
                +++ str_int event_id +++ "/picks/") n = (Ok data, n1) ->
  truthy data = true ->
  subscript data "entry_history" = Ok v ->
  v <> JNull ->
  exists gd df n2,
    get_manager_gameweek_data self manager_id event_id n = (Ok (Some gd), n2)
    /\ dict_get gd "event_history" = Some (Some df)
    /\ List.length (rows df) = 1%nat.
Proof.
  intros Hbase Heps Hinfo Hreq Hrun Htruthy Hsub Hv.
  destruct (get_manager_gameweek_data_run
              self manager_id event_id n base eps info request data n1
              Hbase Heps Hinfo Hreq Hrun Htruthy) as [n2 Hgd].
  destruct (pd_DataFrame_singleton v) as [df [Hdf Hone]].
  eexists. exists df, n2. split; [exact Hgd | ]. split; [ | exact Hone].
  cbn [dict_get String.eqb Ascii.eqb Bool.eqb]. unfold field_value.
  rewrite (contains_when_subscript _ _ _ Hsub), Hsub, (is_none_false v Hv).
  cbn [negb]. unfold field_frame.
  cbn [String.eqb Ascii.eqb Bool.eqb]. rewrite Hdf. reflexivity.
Qed.

Lemma event_history_has_one_row_witness :
  exists gd df n2,
    get_manager_gameweek_data
      (with_helpers api_root) 42 1
      (mkNet (fun _ _ =>
                Reply 200
                  (Some (JDict
                     [("entry_history",
                        JList [JDict [("event", JInt 1)];
                               JDict [("event", JInt 2)]])])))
             O [])
    = (Ok (Some gd), n2)
    /\ dict_get gd "event_history" = Some (Some df)
    /\ List.length (rows df) = 1%nat.
Proof.
  apply (event_history_has_one_row
           (with_helpers api_root) 42 1
           (mkNet (fun _ _ =>
                Reply 200
                  (Some (JDict
                     [("entry_history",
                        JList [JDict [("event", JInt 1)];
                               JDict [("event", JInt 2)]])])))
              O [])
           api_root default_endpoints "entry/" _make_request
           (JDict
              [("entry_history",
                 JList [JDict [("event", JInt 1)]; JDict [("event", JInt 2)]])])
           (mkNet (fun _ _ =>
                Reply 200
                  (Some (JDict
                     [("entry_history",
                        JList [JDict [("event", JInt 1)];
                               JDict [("event", JInt 2)]])])))
              1 [])
           (JList [JDict [("event", JInt 1)]; JDict [("event", JInt 2)]]));
    try reflexivity.
  discriminate.
Defined.

(** X9. For the three other fields of [get_manager_gameweek_data], a value
    that is neither null nor a list gives a frame with exactly one row: an
    object gives its keys as columns, anything else (a string such as the
    name of the chip, a number, a flag) gives one unnamed column holding the
    value itself. *)
Theorem single_value_fields_give_one_row
        self manager_id event_id n base eps info request data n1
        df_key data_key v :
  a_base_url self = Some base ->
  a_endpoints self = Some eps ->
  dict_get eps "manager_info" = Some info ->
  a__make_request self = Some request ->
  request (base +++ info +++ str_int manager_id +++ "/event/"
                +++ str_int event_id +++ "/picks/") n = (Ok data, n1) ->
  truthy data = true ->
  In (df_key, data_key)
     [ ("active_chips", "active_chip"); ("automatic_subs", "automatic_subs");
       ("player_picks", "picks") ] ->
  subscript data data_key = Ok v ->
  v <> JNull ->
  is_list v = false ->
  exists gd df n2,
    get_manager_gameweek_data self manager_id event_id n = (Ok (Some gd), n2)
    /\ dict_get gd df_key = Some (Some df)
    /\ List.length (rows df) = 1%nat
    /\ (is_dict v = true -> columns df = map LName (union_keys [v]))
    /\ (is_dict v = false -> df = mkDF [LPos O] [[v]]).
Proof.
  intros Hbase Heps Hinfo Hreq Hrun Htruthy Hin Hsub Hv Hlist.
  destruct (get_manager_gameweek_data_run
              self manager_id event_id n base eps info request data n1
              Hbase Heps Hinfo Hreq Hrun Htruthy) as [n2 Hgd].
  assert (Hvalue :
            String.eqb df_key "event_history" = false ->
            exists df,
              field_value data df_key data_key = Some df
              /\ List.length (rows df) = 1%nat
              /\ (is_dict v = true -> columns df = map LName (union_keys [v]))
              /\ (is_dict v = false -> df = mkDF [LPos O] [[v]])).
  { intros Hkey. unfold field_value.
    rewrite (contains_when_subscript _ _ _ Hsub), Hsub, (is_none_false v Hv).
    cbn [negb]. unfold field_frame. rewrite Hkey, Hlist. cbn [orb].
    destruct (is_dict v) eqn:Hd; cbv iota.
    - rewrite (pd_DataFrame_records [v]) by (simpl; rewrite Hd; reflexivity).
      eexists. split; [reflexivity | ]. split; [reflexivity | ].
      split; [intros _; reflexivity | discriminate].
    - eexists. split; [reflexivity | ]. split; [reflexivity | ].
      split; [discriminate | intros _; reflexivity]. }
  simpl in Hin.
  destruct Hin as [E | [E | [E | []]]]; injection E as <- <-;
    destruct (Hvalue eq_refl) as [df [Hfv Hrest]];
    eexists; exists df, n2; (split; [exact Hgd | ]);
    (split; [simpl; rewrite Hfv; reflexivity | exact Hrest]).
Qed.

Lemma single_value_fields_give_one_row_witness :
  exists gd n2,
    get_manager_gameweek_data
      (with_helpers api_root) 42 1
      (mkNet (fun _ _ =>
                Reply 200 (Some (JDict [("active_chip", JStr "wildcard")])))
             O [])
    = (Ok (Some gd), n2)
    /\ dict_get gd "active_chips"
       = Some (Some (mkDF [LPos O] [[JStr "wildcard"]])).
Proof.
  destruct (single_value_fields_give_one_row
              (with_helpers api_root) 42 1
              (mkNet (fun _ _ =>
                Reply 200 (Some (JDict [("active_chip", JStr "wildcard")])))
                 O [])
              api_root default_endpoints "entry/" _make_request
              (JDict [("active_chip", JStr "wildcard")])
              (mkNet (fun _ _ =>
                Reply 200 (Some (JDict [("active_chip", JStr "wildcard")])))
                 1 [])
              "active_chips" "active_chip" (JStr "wildcard")
              eq_refl eq_refl eq_refl eq_refl eq_refl eq_refl)
    as [gd [df [n2 [Hrun [Hget [_ [_ Hscalar]]]]]]];
    try reflexivity; try discriminate; [simpl; tauto | ].
  exists gd, n2. split; [exact Hrun | ].
  rewrite Hget, (Hscalar eq_refl). reflexivity.
Defined.

(* ===================================================================== *)
(** ** Further properties: check_for_updates *)
(* ===================================================================== *)

Lemma reads_queries l : reads (map EQuery l) = l.
Proof. induction l as [ | x l IH]; simpl; [reflexivity | rewrite IH; reflexivity]. Qed.

(** The loop, when it runs to the end, with the trace it leaves. *)
Lemma check_tables_trace (tables : dict table) :
  forall items acc w u,
    db (wstore w) = Some tables ->
    verdicts tables items acc = Ok u ->
    check_tables items acc w
    = (Ok u,
       mkWorld (wnet w)
               (mkStore (Some tables)
                        (trace (wstore w) ++ map EQuery (statements tables items)))).
Proof.
  induction items as [ | [name new_df] rest IH];
    intros acc [n [d tr]] u Hdb Hv; simpl in Hdb; subst d.
  - simpl in Hv. injection Hv as <-. simpl. rewrite app_nil_r. reflexivity.
  - cbn [check_tables]. cbn [verdicts] in Hv. unfold bind at 1.
    rewrite (@read_sql_query_run (SelectTableName name)
               (mkWorld n (mkStore (Some tables) tr)) tables eq_refl).
    cbn [run_query wnet wstore trace]. unfold verdict_of in Hv.
    cbn [statements flat_map fst].
    destruct (dict_get tables name) as [t | ] eqn:Ht; cbv iota beta.
    + change (negb (0 <? shape0 (mkDF [LName "name"] [[JStr name]]))) with false.
      cbv iota. unfold bind at 1.
      rewrite (@read_sql_query_run (SelectAll name) _ tables) by reflexivity.
      cbn [run_query wnet wstore trace]. rewrite Ht.
      unfold bind at 1, lift_result.
      destruct (table_verdict name new_df (frame_of_table t)) as [v | e];
        [ | discriminate].
      erewrite IH; [ | reflexivity | exact Hv]. cbn [wnet wstore trace].
      unfold statements. simpl. rewrite <- !app_assoc. reflexivity.
    + change (negb (0 <? shape0 (mkDF [LName "name"] []))) with true.
      cbv iota. erewrite IH; [ | reflexivity | exact Hv].
      cbn [wnet wstore trace].
      unfold statements. simpl. rewrite <- !app_assoc. reflexivity.
Qed.

Lemma dict_keys_set_new {V} (d : dict V) k v :
  ~ In k (dict_keys d) -> dict_keys (dict_set d k v) = dict_keys d ++ [k].
Proof.
  induction d as [ | [k' v'] d IH]; simpl; intros Hnotin; [reflexivity | ].
  destruct (String.eqb k k') eqn:E.
  - apply String.eqb_eq in E. subst k'. exfalso. apply Hnotin. left. reflexivity.
  - simpl. rewrite IH; [reflexivity | ]. intros H. apply Hnotin. right. exact H.
Qed.

Lemma verdicts_keys (tables : dict table) :
  forall items acc u,
    verdicts tables items acc = Ok u ->
    NoDup (dict_keys acc ++ dict_keys items) ->
    dict_keys u = dict_keys acc ++ dict_keys items.
Proof.
  induction items as [ | [n d] rest IH]; simpl; intros acc u Hv Hnd.
  - injection Hv as <-. rewrite app_nil_r. reflexivity.
  - destruct (verdict_of tables n d) as [v | e]; [ | discriminate].
    assert (Hnew : ~ In n (dict_keys acc)).
    { intros Hin. apply NoDup_remove_2 in Hnd. apply Hnd.
      apply in_or_app. left. exact Hin. }
    rewrite (IH _ _ Hv).
    + rewrite (dict_keys_set_new acc n v Hnew), <- app_assoc. reflexivity.
    + rewrite (dict_keys_set_new acc n v Hnew), <- app_assoc. exact Hnd.
Qed.

(** X10. When [check_for_updates] runs to the end it has opened the store
    once and sent, for each fetched table in order, the look-up of the
    table's name and, only for a table the store has, the read of the whole
    table, and nothing else; the verdicts come back in the order of the
    fetched tables. *)
Theorem check_for_updates_statements_and_order
        self w fetch tables api n' :
  a_get_fpl_data self = Some fetch ->
  db (wstore w) = Some tables ->
  fetch (wnet w) = (Ok (Some api), n') ->
  NoDup (dict_keys api) ->
  comparable tables api ->
  exists u,
    check_for_updates self w
    = (Ok u,
       mkWorld n'
         (mkStore (Some tables)
                  (trace (wstore w) ++ EConnect
                     :: map EQuery (statements tables api))))
    /\ dict_keys u = dict_keys api
    /\ (forall name,
           In (sql_text (SelectAll name)) (statements tables api) ->
           exists t, dict_get tables name = Some t).
Proof.
  intros Hb Hdb Hf Hnd Hcomp.
  destruct (verdicts_ok tables api [] Hcomp) as [u Hu].
  exists u. split; [ | split].
  - apply check_for_updates_passes.
    destruct w as [n [d tr]]. simpl in Hdb, Hf. subst d.
    unfold check_for_updates_try. rewrite Hb.
    unfold bind at 1. unfold sqlite3_connect. cbn [wstore db wnet trace].
    unfold bind at 1. cbn [load_attr ret].
    unfold bind at 1. unfold liftF. cbn [wnet wstore]. rewrite Hf.
    destruct api as [ | p api].
    + simpl in Hu. injection Hu as <-. simpl. reflexivity.
    + cbn [no_tables dict_falsy tables_of].
      erewrite check_tables_trace; [ | reflexivity | exact Hu].
      cbn [wnet wstore trace]. rewrite <- app_assoc. reflexivity.
  - apply (verdicts_keys tables api [] u Hu). exact Hnd.
  - intros name Hin. unfold statements in Hin.
    apply in_flat_map in Hin. destruct Hin as [[k df] [_ Hin]].
    cbn [fst] in Hin. destruct Hin as [E | Hin].
    + exfalso. simpl in E. injection E. discriminate.
    + destruct (dict_get tables k) as [t | ] eqn:Ht; [ | contradiction].
      destruct Hin as [E | []]. simpl in E.
      assert (k = name) as <-; [ | exists t; exact Ht].
      injection E as E. exact E.
Qed.

Lemma check_for_updates_statements_and_order_witness :
  exists u w',
    check_for_updates scenario_self scenario_world = (Ok u, w')
    /\ dict_keys u
       = ["chips"; "months"; "football_players"; "football_teams";
          "game_weeks"; "element_types"; "element_stats"]
    /\ List.length (reads (trace (wstore w'))) = 11%nat.
Proof.
  destruct (check_for_updates_statements_and_order
              scenario_self scenario_world _ scenario_tables scenario_api _
              eq_refl eq_refl scenario_fetch scenario_nodup scenario_comparable)
    as [u [Hrun [Hkeys _]]].
  exists u. eexists. split; [exact Hrun | ]. split; [exact Hkeys | ].
  reflexivity.
Defined.

(** X11. When every fetched table is in the store with exactly the fetched
    content (and the players table has its [total_points] column),
    [check_for_updates] returns the verdict false for every fetched table. *)
Theorem identical_store_gives_all_false self w fetch tables api n' :
  a_get_fpl_data self = Some fetch ->
  db (wstore w) = Some tables ->
  fetch (wnet w) = (Ok (Some api), n') ->
  NoDup (dict_keys api) ->
  (forall name fresh,
      In (name, fresh) api ->
      exists t, dict_get tables name = Some t /\ frame_of_table t = fresh) ->
  (forall fresh,
      In ("football_players", fresh) api ->
      has_column fresh "total_points" = true) ->
  api <> [] ->
  exists u,
    fst (check_for_updates self w) = Ok u
    /\ u <> []
    /\ forall name fresh, In (name, fresh) api -> dict_get u name = Some false.
Proof.
  intros Hb Hdb Hf Hnd Hsame Hcol Hne.
  assert (Hcomp : comparable tables api).
  { intros new_df t Hin Ht. destruct (Hsame _ _ Hin) as [t' [Ht' Heq]].
    rewrite Ht in Ht'. injection Ht' as <-. rewrite Heq.
    split; apply (Hcol _ Hin). }
  destruct (verdicts_ok tables api [] Hcomp) as [u Hu].
  exists u. split; [ | split].
  - rewrite (check_for_updates_run _ _ _ _ _ _ Hb Hdb Hf Hne), Hu. reflexivity.
  - destruct api as [ | [k d] api]; [congruence | ].
    destruct (verdicts_covers tables _ _ _ Hu k) as [v Hv];
      [left; left; reflexivity | ].
    intros E. rewrite E in Hv. discriminate.
  - intros name fresh Hin.
    destruct (verdicts_lookup tables _ _ _ Hu Hnd) as [Hall _].
    destruct (Hall _ _ Hin) as [v [Hv Hget]].
    rewrite Hget. f_equal. f_equal.
    destruct (Hsame _ _ Hin) as [t [Ht Heq]].
    unfold verdict_of in Hv. rewrite Ht, Heq in Hv. unfold table_verdict in Hv.
    destruct (String.eqb name "game_weeks").
    + injection Hv as <-. rewrite (proj2 (equals_eq fresh fresh) eq_refl).
      reflexivity.
    + destruct (String.eqb name "football_players").
      * destruct (getitem fresh "total_points") as [col | e]; [ | discriminate].
        injection Hv as <-.
        rewrite (proj2 (series_equals_eq col col) eq_refl). reflexivity.
      * injection Hv as <-. rewrite Z.eqb_refl. reflexivity.
Qed.

Lemma mirror_fetch :
  get_fpl_data (mkInstance (Some api_root) (Some default_endpoints) None None
                           (Some _make_request) None None)
               (wnet mirror_world)
  = (Ok (Some mirror_api),
     mkNet (fun _ _ => Reply 200 (Some mirror_body)) 1 []).
Proof. vm_compute. reflexivity. Qed.

Lemma mirror_nodup : NoDup (dict_keys mirror_api).
Proof.
  simpl. repeat (constructor; [simpl; intuition discriminate | ]). constructor.
Qed.

Lemma mirror_same name fresh :
  In (name, fresh) mirror_api ->
  exists t, dict_get mirror_tables name = Some t /\ frame_of_table t = fresh.
Proof.
  simpl. intros Hin.
  repeat (destruct Hin as [E | Hin];
          [injection E as <- <-; eexists; split; reflexivity | ]).
  contradiction.
Qed.

Lemma mirror_players fresh :
  In ("football_players", fresh) mirror_api ->
  has_column fresh "total_points" = true.
Proof.
  simpl. intros Hin.
  repeat (destruct Hin as [E | Hin];
          [try discriminate E; injection E as <-; reflexivity | ]).
  contradiction.
Qed.

Lemma identical_store_gives_all_false_witness :
  exists u,
    fst (check_for_updates scenario_self mirror_world) = Ok u
    /\ dict_get u "game_weeks" = Some false
    /\ dict_get u "chips" = Some false.
Proof.
  destruct (identical_store_gives_all_false
              scenario_self mirror_world _ mirror_tables mirror_api _
              eq_refl eq_refl mirror_fetch mirror_nodup mirror_same
              mirror_players)
    as [u [Hrun [_ Hall]]]; [discriminate | ].
  exists u. split; [exact Hrun | ]. split.
  - apply (Hall "game_weeks" mirror_frame). simpl. tauto.
  - apply (Hall "chips" mirror_frame). simpl. tauto.
Defined.

(** X12. [check_for_updates] opens the store before it fetches and resolves
    [get_fpl_data] on the object before it calls it: when the store cannot
    be opened, or when the object has no such attribute (the class body
    defines no method of that name), it returns the empty dict, prints one
    line, makes no request and sends no statement. *)
Theorem check_for_updates_without_store_or_fetcher self w :
  (db (wstore w) = None ->
   check_for_updates self w
   = (Ok [],
      printed w "Error checking for updates: unable to open database file"))
  /\ (forall tables,
         db (wstore w) = Some tables ->
         a_get_fpl_data self = None ->
         check_for_updates self w
         = (Ok [],
            printed (mkWorld (wnet w) (connected w))
              "Error checking for updates: 'FPLDataCollection' object has no attribute 'get_fpl_data'")).
Proof.
  split.
  - intros Hdb.
    rewrite (check_for_updates_recovers _ _ _ _ (try_store_unreachable self w Hdb)).
    reflexivity.
  - intros tables Hdb Ha.
    rewrite (check_for_updates_recovers _ _ _ _
               (try_no_attribute self w tables Hdb Ha)).
    reflexivity.
Qed.

Lemma check_for_updates_without_store_or_fetcher_witness :
  check_for_updates
    (mkInstance (Some api_root) (Some default_endpoints) None None None None None)
    scenario_world
  = (Ok [],
     mkWorld
       (mkNet scenario_remote O
          ["Error checking for updates: 'FPLDataCollection' object has no attribute 'get_fpl_data'"])
       (mkStore (Some scenario_tables) [EConnect])).
Proof.
  apply (proj2 (check_for_updates_without_store_or_fetcher
                  (mkInstance (Some api_root) (Some default_endpoints)
                              None None None None None)
                  scenario_world) scenario_tables); reflexivity.
Defined.

(* ===================================================================== *)
(** ** Further properties: sync_database *)
(* ===================================================================== *)

Lemma liftF_print w line : liftF (print line) w = (Ok tt, printed w line).
Proof. reflexivity. Qed.

Lemma needing_update_none specific_tables (u : dict bool) :
  (forall t, In t (candidate_tables specific_tables u) ->
             dict_get u t <> Some true) ->
  tables_needing_update specific_tables u = [].
Proof.
  intros H. unfold tables_needing_update. apply filter_none.
  intros t Ht. unfold dict_get_default. specialize (H t Ht).
  destruct (dict_get u t) as [[ | ] | ]; congruence.
Qed.

Lemma needing_update_not_empty specific_tables (u : dict bool) :
  tables_needing_update specific_tables u <> [] -> dict_falsy u = false.
Proof.
  intros H. destruct u as [ | p u]; [ | reflexivity].
  exfalso. apply H. unfold tables_needing_update.
  apply filter_none. intros t _. reflexivity.
Qed.

(** X13. Whenever [check_for_updates] comes back with the empty dict, and so
    whenever the store cannot be opened, [sync_database] prints "No updates
    available or error checking for updates", returns normally and makes no
    request of its own, whatever the filter. *)
Theorem sync_database_stops_on_empty_verdicts self specific_tables w :
  (forall w1,
      check_for_updates self w = (Ok [], w1) ->
      sync_database self specific_tables w
      = (Ok tt,
         printed w1 "No updates available or error checking for updates"))
  /\ (db (wstore w) = None ->
      sync_database self specific_tables w
      = (Ok tt,
         printed
           (printed w
              "Error checking for updates: unable to open database file")
           "No updates available or error checking for updates")).
Proof.
  assert (Hempty : forall w1,
             check_for_updates self w = (Ok [], w1) ->
             sync_database self specific_tables w
             = (Ok tt,
                printed w1 "No updates available or error checking for updates")).
  { intros w1 Hcheck. unfold sync_database. unfold bind at 1.
    rewrite Hcheck. reflexivity. }
  split; [exact Hempty | ].
  intros Hdb. apply Hempty.
  apply (proj1 (check_for_updates_without_store_or_fetcher self w) Hdb).
Qed.

Lemma sync_database_stops_on_empty_verdicts_witness :
  sync_database scenario_self (Some ["chips"])
    (mkWorld (mkNet scenario_remote O []) (mkStore None []))
  = (Ok tt,
     mkWorld
       (mkNet scenario_remote O
          [ "Error checking for updates: unable to open database file";
            "No updates available or error checking for updates" ])
       (mkStore None [])).
Proof.
  apply (proj2 (sync_database_stops_on_empty_verdicts
                  scenario_self (Some ["chips"])
                  (mkWorld (mkNet scenario_remote O []) (mkStore None [])))).
  reflexivity.
Defined.

(** X14. When no candidate table has the verdict true, [sync_database]
    prints "All specified tables are up to date" and returns without a second
    fetch.  A name in the filter that has no verdict counts as up to date: a
    filter of unknown names is answered the same way, whatever the other
    verdicts are. *)
Theorem sync_database_stops_when_nothing_to_update
        self specific_tables w u w1 :
  check_for_updates self w = (Ok u, w1) ->
  u <> [] ->
  (forall t, In t (candidate_tables specific_tables u) ->
             dict_get u t <> Some true) ->
  sync_database self specific_tables w
  = (Ok tt, printed w1 "All specified tables are up to date").
Proof.
  intros Hcheck Hne Hnone. unfold sync_database. unfold bind at 1.
  rewrite Hcheck. destruct u as [ | p u]; [congruence | ].
  cbn [dict_falsy].
  change (filter (fun t => dict_get_default (p :: u) t false)
                 (candidate_tables specific_tables (p :: u)))
    with (tables_needing_update specific_tables (p :: u)).
  rewrite (needing_update_none specific_tables (p :: u) Hnone).
  reflexivity.
Qed.

Lemma sync_database_stops_when_nothing_to_update_witness :
  exists w1,
    sync_database scenario_self (Some ["football_team"; "gameweeks"])
                  scenario_world
    = (Ok tt, printed w1 "All specified tables are up to date")
    /\ clock (wnet w1) = 1%nat.
Proof.
  eexists. split.
  - apply (sync_database_stops_when_nothing_to_update
             scenario_self (Some ["football_team"; "gameweeks"]) scenario_world
             [ ("chips", true); ("months", false); ("football_players", false);
               ("football_teams", false); ("game_weeks", true);
               ("element_types", true); ("element_stats", true) ]).
    + vm_compute. reflexivity.
    + discriminate.
    + simpl. intros t [<- | [<- | []]]; discriminate.
  - reflexivity.
Defined.

Lemma build_update_dict_missing {S} (new_data : TableSet) :
  forall tables acc (s : S) x,
    In x tables ->
    dict_get new_data x = None ->
    exists x',
      build_update_dict new_data tables acc s = (Raise (KeyError x'), s)
      /\ In x' tables.
Proof.
  induction tables as [ | t rest IH]; simpl; intros acc s x Hin Hx.
  - contradiction.
  - unfold bind, dict_item. destruct (dict_get new_data t) as [df | ] eqn:Ht.
    + destruct Hin as [-> | Hin]; [congruence | ].
      destruct (IH (dict_set acc t df) s x Hin Hx) as [x' [Hx' Hin']].
      exists x'. split; [exact Hx' | right; exact Hin'].
    + exists t. split; [reflexivity | left; reflexivity].
Qed.

(** X15. The second fetch of [sync_database] is not guarded.  Once some
    candidate table has the verdict true the tables are announced and
    [get_fpl_data] is called again: an exception of that call leaves
    [sync_database]; a call that returns nothing makes it print "Failed to
    fetch new data" and return; a table set that lacks an announced table
    makes it raise [KeyError] for such a table. *)
Theorem sync_database_second_fetch self specific_tables w u w1 fetch t ts :
  check_for_updates self w = (Ok u, w1) ->
  tables_needing_update specific_tables u = t :: ts ->
  a_get_fpl_data self = Some fetch ->
  let w2 := printed w1 ("Updating tables: " +++ String.concat ", " (t :: ts)) in
  (forall e n2,
      fetch (wnet w2) = (Raise e, n2) ->
      sync_database self specific_tables w = (Raise e, mkWorld n2 (wstore w1)))
  /\ (forall md n2,
         fetch (wnet w2) = (Ok md, n2) ->
         no_tables md = true ->
         sync_database self specific_tables w
         = (Ok tt, printed (mkWorld n2 (wstore w1)) "Failed to fetch new data"))
  /\ (forall new_data n2 x,
         fetch (wnet w2) = (Ok (Some new_data), n2) ->
         new_data <> [] ->
         In x (t :: ts) ->
         dict_get new_data x = None ->
         exists x',
           sync_database self specific_tables w
           = (Raise (KeyError x'), mkWorld n2 (wstore w1))
           /\ In x' (t :: ts)).
Proof.
  intros Hcheck Hneed Hb w2.
  assert (Hfalsy : dict_falsy u = false).
  { apply (needing_update_not_empty specific_tables). rewrite Hneed. discriminate. }
  assert (Hshape :
            sync_database self specific_tables w
            = (bind (liftF fetch) (fun new_data =>
                 if no_tables new_data then liftF (print "Failed to fetch new data")
                 else bind (build_update_dict (tables_of new_data) (t :: ts) [])
                           (fun _ => ret tt))) w2).
  { unfold sync_database. unfold bind at 1. rewrite Hcheck, Hfalsy.
    change (filter (fun t0 => dict_get_default u t0 false)
                   (candidate_tables specific_tables u))
      with (tables_needing_update specific_tables u).
    rewrite Hneed. unfold bind at 1. rewrite liftF_print. fold w2.
    unfold bind at 1. rewrite Hb. reflexivity. }
  rewrite Hshape. clear Hshape.
  split; [ | split].
  - intros e n2 Hf. unfold bind, liftF. rewrite Hf. reflexivity.
  - intros md n2 Hf Hno. unfold bind at 1. unfold liftF at 1. rewrite Hf, Hno.
    reflexivity.
  - intros new_data n2 x Hf Hne Hin Hx.
    unfold bind at 1. unfold liftF at 1. rewrite Hf.
    destruct new_data as [ | p new_data]; [congruence | ].
    cbn [no_tables dict_falsy tables_of].
    destruct (build_update_dict_missing (p :: new_data) (t :: ts) []
                (mkWorld n2 (wstore w2)) x Hin Hx) as [x' [Hx' Hin']].
    exists x'. split; [ | exact Hin'].
    unfold bind. rewrite Hx'. reflexivity.
Qed.

Lemma sync_database_second_fetch_witness :
  sync_database scenario_self None flaky_world
  = (Raise (JSONDecodeError "Expecting value"),
     mkWorld
       (mkNet flaky_remote 2
          ["Updating tables: chips, game_weeks, element_types, element_stats"])
       (mkStore (Some scenario_tables)
          (EConnect :: map EQuery (statements scenario_tables scenario_api)))).
Proof.
  refine (proj1 (sync_database_second_fetch
                   scenario_self None flaky_world
                   [ ("chips", true); ("months", false);
                     ("football_players", false); ("football_teams", false);
                     ("game_weeks", true); ("element_types", true);
                     ("element_stats", true) ]
                   (mkWorld (mkNet flaky_remote 1 [])
                      (mkStore (Some scenario_tables)
                         (EConnect
                            :: map EQuery
                                 (statements scenario_tables scenario_api))))
                   (get_fpl_data
                      (mkInstance (Some api_root) (Some default_endpoints)
                                  None None (Some _make_request) None None))
                   "chips" ["game_weeks"; "element_types"; "element_stats"]
                   _ _ eq_refl) _ _ _).
  - vm_compute. reflexivity.
  - reflexivity.
  - vm_compute. reflexivity.
Defined.

(* ===================================================================== *)
(** ** Further properties: what the store cannot hold *)
(* ===================================================================== *)



